(** * SEO content optimizer: the analysis engine of [app.py]

    A shallow embedding of the pure analysis pipeline of [app.py]
    (normalisation, tokenisation, sentence splitting, syllable estimation,
    Flesch reading ease, heading extraction, keyword metrics, suggestion rules
    and the [analyze] orchestrator), followed by the properties stated about
    it.

    Conventions.
    - A Python [str] is a sequence of Unicode code points: [pystr := list N].
    - A Python [int] is a [Z]; [len] of a list or string is [Z.of_nat (length _)].
    - A Python [float] is an IEEE binary64 number: the kernel's [float].
    - A Python [dict] or [Counter] is an association list in insertion order
      (CPython dictionaries keep insertion order, and [most_common] relies on
      it to break ties).
    - Code that can raise lives in the monad [py]; the only raising primitive
      the engine uses is true division [/].
    - Regular expressions are embedded as the scanners they denote; each
      scanner quotes its pattern. *)

From Stdlib Require Import String Ascii ZArith NArith List Bool Lia.
From Stdlib Require Import Floats Uint63.
Import ListNotations.

Set Warnings "-inexact-float".

Local Open Scope bool_scope.

(** ** Python strings *)

Definition pystr := list N.

(** The code points of a literal of this file (all literals are ASCII). *)
Definition lit (s : string) : pystr :=
  map N_of_ascii (list_ascii_of_string s).

(** [a == b] *)
Fixpoint pystr_eqb (a b : pystr) : bool :=
  match a, b with
  | [], [] => true
  | x :: a', y :: b' => (x =? y)%N && pystr_eqb a' b'
  | _, _ => false
  end.

Definition in_range (lo hi c : N) : bool := ((lo <=? c) && (c <=? hi))%N.

(** [str.isspace] on one code point, which is also what [\s] matches in a
    [str] pattern and what [str.strip()] and [str.split()] remove. *)
Definition isspace (c : N) : bool :=
  in_range 9 13 c || in_range 28 32 c
  || (c =? 133)%N || (c =? 160)%N || (c =? 5760)%N
  || in_range 8192 8202 c
  || (c =? 8232)%N || (c =? 8233)%N || (c =? 8239)%N || (c =? 8287)%N
  || (c =? 12288)%N.

Fixpoint lstrip (s : pystr) : pystr :=
  match s with
  | [] => []
  | c :: t => if isspace c then lstrip t else s
  end.

Definition rstrip (s : pystr) : pystr := rev (lstrip (rev s)).

(** [s.strip()] *)
Definition strip (s : pystr) : pystr := rstrip (lstrip s).

(** [s.replace(a, b)] for one-character [a] and [b]. *)
Definition replace_char (a b : N) (s : pystr) : pystr :=
  map (fun c => if (c =? a)%N then b else c) s.

(** [re.sub(r"\s+", " ", s)]: every maximal run of whitespace becomes one
    space. [in_run] tells that the previous character was whitespace. *)
Fixpoint sub_ws_runs (in_run : bool) (s : pystr) : pystr :=
  match s with
  | [] => []
  | c :: t =>
      if isspace c
      then (if in_run then sub_ws_runs true t else 32%N :: sub_ws_runs true t)
      else c :: sub_ws_runs false t
  end.

Definition normalize_text (s : pystr) : pystr :=
  let s := replace_char 8217 39 s in
  let s := replace_char 8220 34 s in
  let s := replace_char 8221 34 s in
  strip (sub_ws_runs false s).

(** ** Tokenizer *)

Definition is_upper (c : N) : bool := in_range 65 90 c.
Definition is_lower (c : N) : bool := in_range 97 122 c.
Definition is_ascii_digit (c : N) : bool := in_range 48 57 c.

(** The class [[A-Za-z0-9']] of [WORD_RE]. *)
Definition is_WORD_RE_char (c : N) : bool :=
  is_upper c || is_lower c || is_ascii_digit c || (c =? 39)%N.

Definition ascii_lower_char (c : N) : N := if is_upper c then (c + 32)%N else c.

Definition flush (cur : pystr) : list pystr :=
  match cur with
  | [] => []
  | _ => [rev cur]
  end.

(** [WORD_RE.findall(text)]: the maximal runs of [[A-Za-z0-9']].
    [cur] holds the run being read, latest character first. *)
Fixpoint WORD_RE_findall (cur : pystr) (text : pystr) : list pystr :=
  match text with
  | [] => flush cur
  | c :: t =>
      if is_WORD_RE_char c
      then WORD_RE_findall (c :: cur) t
      else flush cur ++ WORD_RE_findall [] t
  end.

(** A token holds ASCII characters only, so [w.lower()] is ASCII lowering. *)
Definition tokenize_words (text : pystr) : list pystr :=
  map (map ascii_lower_char) (WORD_RE_findall [] text).

(** The class [[.!?]]. *)
Definition is_terminator (c : N) : bool :=
  (c =? 46)%N || (c =? 33)%N || (c =? 63)%N.

(** [re.split(r"[.!?]+(?:\s|$)", text)].  A separator is a maximal run of
    terminators followed by one whitespace character or by the end of the
    text; a run followed by anything else belongs to the piece around it.
    [cur] is the piece being read and [pend] the run of terminators just
    read, both latest character first. *)
Fixpoint split_terminators (cur pend : pystr) (text : pystr) : list pystr :=
  match text with
  | [] =>
      match pend with
      | [] => [rev cur]
      | _ => [rev cur; []]
      end
  | c :: t =>
      if is_terminator c then split_terminators cur (c :: pend) t
      else
        match pend with
        | [] => split_terminators (c :: cur) [] t
        | _ =>
            if isspace c then rev cur :: split_terminators [] [] t
            else split_terminators (c :: pend ++ cur) [] t
        end
  end.

Definition nonblank (p : pystr) : bool :=
  match strip p with
  | [] => false
  | _ => true
  end.

Definition split_sentences (text : pystr) : list pystr :=
  let parts := split_terminators [] [] (strip text) in
  map strip (filter nonblank parts).

(** ** Syllable estimator *)

(** The letters [a]-[z] that one code point contributes to
    [re.sub(r"[^a-z]", "", word.lower())].  Besides the ASCII letters, two
    code points lower to a string with an ASCII letter in it: U+0130 (to [i]
    and a combining dot) and U+212A, the Kelvin sign (to [k]). *)
Definition lower_az (c : N) : pystr :=
  if is_upper c then [(c + 32)%N]
  else if is_lower c then [c]
  else if (c =? 304)%N then [105%N]
  else if (c =? 8490)%N then [107%N]
  else [].

Definition letters_only (word : pystr) : pystr := flat_map lower_az word.

(** [ch in "aeiouy"] *)
Definition is_vowel (c : N) : bool :=
  (c =? 97)%N || (c =? 101)%N || (c =? 105)%N || (c =? 111)%N
  || (c =? 117)%N || (c =? 121)%N.

(** The loop over [w]: [syllables] and [prev_vowel] are the loop's state. *)
Fixpoint vowel_groups (syllables : Z) (prev_vowel : bool) (w : pystr) : Z :=
  match w with
  | [] => syllables
  | ch :: t =>
      let is_v := is_vowel ch in
      vowel_groups (if is_v && negb prev_vowel then syllables + 1 else syllables)%Z
                   is_v t
  end.

Fixpoint is_prefix (p s : pystr) : bool :=
  match p, s with
  | [], _ => true
  | _ :: _, [] => false
  | a :: p', b :: s' => (a =? b)%N && is_prefix p' s'
  end.

(** [w.endswith(suffix)] *)
Definition endswith (w suffix : pystr) : bool := is_prefix (rev suffix) (rev w).

Definition count_syllables (word : pystr) : Z :=
  let w := letters_only word in
  match w with
  | [] => 0%Z
  | _ =>
      let syllables := vowel_groups 0 false w in
      let syllables :=
        if endswith w (lit "e") && (1 <? syllables)%Z
           && negb (endswith w (lit "le") || endswith w (lit "ye"))
        then (syllables - 1)%Z else syllables in
      Z.max 1 syllables
  end.

(** ** Exceptions and floats *)

Inductive exn : Set := ZeroDivisionError.

(** A computation that returns a value or raises. *)
Inductive py (A : Type) : Type :=
| Ok (a : A)
| Raise (e : exn).
Arguments Ok {A} a.
Arguments Raise {A} e.

Definition bind {A B : Type} (c : py A) (k : A -> py B) : py B :=
  match c with
  | Ok a => k a
  | Raise e => Raise e
  end.

Notation "x <- c ;; k" := (bind c (fun x => k))
  (at level 61, c at next level, right associativity).

(** [len(xs)] *)
Definition len {A : Type} (xs : list A) : Z := Z.of_nat (length xs).

(** [float(n)] for an [int] below [2^63] in absolute value, which every
    length and count of this program is ([len] is at most [sys.maxsize]). *)
Definition float_of_int (n : Z) : float :=
  if (n <? 0)%Z then (- of_uint63 (Uint63.of_Z (- n)))%float
  else of_uint63 (Uint63.of_Z n).

(** [a / b] on two [int]s: true division, which raises on a zero divisor.
    (For operands up to [2^53] the quotient of the converted operands is the
    correctly rounded quotient CPython returns.) *)
Definition truediv (a b : Z) : py float :=
  if (b =? 0)%Z then Raise ZeroDivisionError
  else Ok (float_of_int a / float_of_int b)%float.

(** [num / den] rounded to the nearest integer, ties to even
    ([0 <= num], [0 < den]). *)
Definition round_half_even (num den : Z) : Z :=
  let q := (num / den)%Z in
  let r := (num mod den)%Z in
  match (2 * r ?= den)%Z with
  | Lt => q
  | Gt => (q + 1)%Z
  | Eq => if Z.even q then q else (q + 1)%Z
  end.

(** [round(x, ndigits)] for [0 <= ndigits]: CPython rounds the exact binary
    value of [x] to [ndigits] decimals, ties to even, and returns the double
    nearest to that decimal; zeros, infinities, NaN and integral values are
    returned as they are. *)
Definition py_round (x : float) (ndigits : Z) : float :=
  match Prim2SF x with
  | S754_finite s m e =>
      if (0 <=? e)%Z then x
      else
        let p := (10 ^ ndigits)%Z in
        let d := round_half_even (Z.pos m * p) (2 ^ (- e)) in
        let r := (float_of_int d / float_of_int p)%float in
        if s then (- r)%float else r
  | _ => x
  end.

(** [sum(xs)] *)
Definition sum (xs : list Z) : Z := fold_left Z.add xs 0%Z.

Definition is_empty {A : Type} (xs : list A) : bool :=
  match xs with
  | [] => true
  | _ => false
  end.

(** ** Readability scorer *)

Definition flesch_reading_ease (words sentences : list pystr) : py float :=
  if is_empty words || is_empty sentences then Ok 0%float
  else
    let syllable_count := sum (map count_syllables words) in
    wps <- truediv (len words) (Z.max 1 (len sentences)) ;;
    spw <- truediv syllable_count (Z.max 1 (len words)) ;;
    let score := (206.835 - (1.015 * wps) - (84.6 * spw))%float in
    Ok (py_round score 1).

Definition score_band (flesch : float) : pystr :=
  if (90 <=? flesch)%float then lit "Very easy"
  else if (80 <=? flesch)%float then lit "Easy"
  else if (70 <=? flesch)%float then lit "Fairly easy"
  else if (60 <=? flesch)%float then lit "Standard"
  else if (50 <=? flesch)%float then lit "Fairly difficult"
  else if (30 <=? flesch)%float then lit "Difficult"
  else lit "Very difficult".

(** ** Dictionaries and counters *)

(** A [dict] with string keys, in insertion order. *)
Definition dict (V : Type) := list (pystr * V).

(** [d.get(k)] *)
Fixpoint dict_get {V : Type} (d : dict V) (k : pystr) : option V :=
  match d with
  | [] => None
  | (k', v) :: d' => if pystr_eqb k k' then Some v else dict_get d' k
  end.

(** [d[k] = v]: an existing key keeps its place. *)
Fixpoint dict_set {V : Type} (d : dict V) (k : pystr) (v : V) : dict V :=
  match d with
  | [] => [(k, v)]
  | (k', v') :: d' =>
      if pystr_eqb k k' then (k, v) :: d' else (k', v') :: dict_set d' k v
  end.

(** [{k: v for (k, v) in kvs}] *)
Definition dict_of {V : Type} (kvs : list (pystr * V)) : dict V :=
  fold_left (fun d kv => dict_set d (fst kv) (snd kv)) kvs [].

Definition Counter := dict Z.

(** [c.get(k, 0)], which is also [c[k]] on a [Counter]. *)
Definition counter_get (c : Counter) (k : pystr) : Z :=
  match dict_get c k with
  | Some n => n
  | None => 0%Z
  end.

(** [c[k] += n] *)
Definition counter_add (c : Counter) (k : pystr) (n : Z) : Counter :=
  dict_set c k (counter_get c k + n)%Z.

(** [Counter(xs)] *)
Definition Counter_of (xs : list pystr) : Counter :=
  fold_left (fun c x => counter_add c x 1) xs [].

(** [c.update(other)] with a [Counter] argument: counts are added. *)
Definition counter_update (c other : Counter) : Counter :=
  fold_left (fun acc kv => counter_add acc (fst kv) (snd kv)) other c.

(** Insertion in a list sorted by decreasing count; [x] stays ahead of the
    entries that do not beat it, as in a stable sort of a list [x] heads. *)
Fixpoint insert_by_count (x : pystr * Z) (l : list (pystr * Z)) : list (pystr * Z) :=
  match l with
  | [] => [x]
  | y :: l' => if (snd x <? snd y)%Z then y :: insert_by_count x l' else x :: l
  end.

(** [sorted(items, key=itemgetter(1), reverse=True)] *)
Definition sort_by_count (items : list (pystr * Z)) : list (pystr * Z) :=
  fold_right insert_by_count [] items.

(** [c.most_common(n)]: the [n] largest counts, earlier entries first among
    equal counts. *)
Definition most_common (c : Counter) (n : nat) : list (pystr * Z) :=
  firstn n (sort_by_count c).

(** ** The Unicode tables of the runtime

    Outside ASCII the engine's answers depend on the Unicode character
    database of the Python runtime, which is not part of the repository: it
    is a parameter of the model.  Every function below decides ASCII input by
    itself and asks the database only about strings with a code point from
    128 on. *)
Record unicode_db : Type := {
  (** [chr(c).isalnum()] *)
  ucd_isalnum : N -> bool;
  (** [chr(c).isdigit()] *)
  ucd_isdigit : N -> bool;
  (** [s.lower()] *)
  ucd_lower : pystr -> pystr;
  (** a literal [p] of a pattern compiled with [re.IGNORECASE] matches [c] *)
  ucd_ignorecase_eq : N -> N -> bool
}.

(** A database that knows no letter, digit or case outside ASCII. *)
Definition ascii_only_db : unicode_db :=
  {| ucd_isalnum := fun _ => false;
     ucd_isdigit := fun _ => false;
     ucd_lower := fun s => s;
     ucd_ignorecase_eq := N.eqb |}.

Definition is_ascii (c : N) : bool := (c <? 128)%N.

(** ** Result records *)

Record Keywords : Type := {
  target_keyword : pystr;
  target_count : Z;
  target_density_percent : float;
  related_keywords : list pystr;
  related_counts : dict Z;
  top_terms : list (pystr * Z)
}.

Record Flags : Type := {
  has_target : bool;
  density_low : bool;
  density_high : bool
}.

Record Stats : Type := {
  word_count : Z;
  character_count : Z;
  sentence_count : Z;
  paragraph_count : Z
}.

Record Readability : Type := {
  r_flesch_reading_ease : float;
  r_level : pystr;
  r_avg_words_per_sentence : float
}.

Record AnalysisResult : Type := {
  stats : Stats;
  keywords : Keywords;
  headings : dict Z;
  readability : Readability;
  suggestions : list pystr
}.

(** The request: a field is [None] when the key is missing or [null]. *)
Record Payload : Type := {
  payload_content : option pystr;
  payload_target_keyword : option pystr;
  payload_related_keywords : option pystr;
  payload_meta_title : option pystr;
  payload_meta_description : option pystr
}.

(** [payload.get(key, "") or ""] *)
Definition get_or_empty (field : option pystr) : pystr :=
  match field with
  | Some s => s
  | None => []
  end.

(** ** The advisory messages of [make_suggestions] *)

Definition MSG_ADD_DEPTH : pystr :=
  lit "Add more depth. Aim for at least 300 to 800 words for most posts.".
Definition MSG_TRIM : pystr :=
  lit "Consider trimming or adding subheadings. Very long posts need strong structure.".
Definition MSG_SHORTEN_SENTENCES : pystr :=
  lit "Shorten sentences. Average sentence length is a bit high.".
Definition MSG_ADD_H1 : pystr :=
  lit "Add one clear H1 title (or a top-level heading) to define the page topic.".
Definition MSG_ONE_H1 : pystr :=
  lit "Use only one H1. Convert extra H1s into H2s.".
Definition MSG_ADD_H2 : pystr :=
  lit "Add H2 subheadings to break up sections and improve scan-ability.".
Definition MSG_ADD_H3 : pystr :=
  lit "Add some H3 subheadings for details inside each section.".
Definition MSG_INCLUDE_TARGET : pystr :=
  lit "Include your target keyword at least once, ideally in the first 100 words.".
Definition MSG_DENSITY_LOW : pystr :=
  lit "Target keyword density looks low. Add it naturally 1 to 3 times.".
Definition MSG_DENSITY_HIGH : pystr :=
  lit "Target keyword density looks high. Reduce repetition and use synonyms.".
Definition MSG_ADD_TARGET : pystr :=
  lit "Add a target keyword to get keyword density and placement feedback.".
Definition MSG_ADD_META_TITLE : pystr :=
  lit "Add a meta title. Keep it clear and specific.".
Definition MSG_META_TITLE_SHORT : pystr :=
  lit "Meta title may be short. Many titles perform well around 45 to 60 characters.".
Definition MSG_META_TITLE_LONG : pystr :=
  lit "Meta title may be long. Consider shortening to about 60 characters.".
Definition MSG_META_TITLE_KEYWORD : pystr :=
  lit "Try including the target keyword in the meta title, if it fits naturally.".
Definition MSG_ADD_META_DESC : pystr :=
  lit "Add a meta description. Summarize the value in 1 to 2 sentences.".
Definition MSG_META_DESC_SHORT : pystr :=
  lit "Meta description may be short. Many descriptions perform well around 120 to 160 characters.".
Definition MSG_META_DESC_LONG : pystr :=
  lit "Meta description may be long. Consider trimming to about 160 characters.".
Definition MSG_META_DESC_KEYWORD : pystr :=
  lit "Try including the target keyword in the meta description, if it fits naturally.".
(** The apostrophe of this message is U+2019. *)
Definition MSG_LONG_PARAGRAPHS : pystr :=
  lit "Break up long paragraphs. Aim for tighter blocks so it"
  ++ [8217%N] ++ lit "s easier to read.".

(** ** Line and paragraph scanners *)

(** The line boundaries of [str.splitlines]. *)
Definition is_linebreak (c : N) : bool :=
  in_range 10 13 c || in_range 28 30 c
  || (c =? 133)%N || (c =? 8232)%N || (c =? 8233)%N.

(** [text.splitlines()]: a carriage return and the line feed after it are
    one boundary, and a final boundary opens no further line. *)
Fixpoint splitlines_from (cur : pystr) (text : pystr) : list pystr :=
  match text with
  | [] => flush cur
  | c :: t =>
      if (c =? 13)%N then
        match t with
        | 10%N :: t' => rev cur :: splitlines_from [] t'
        | _ => rev cur :: splitlines_from [] t
        end
      else if is_linebreak c then rev cur :: splitlines_from [] t
      else splitlines_from (c :: cur) t
  end.

Definition splitlines (text : pystr) : list pystr := splitlines_from [] text.

(** The state of the scanner for [\n\s*\n] after a line feed: the
    whitespace read since the last line feed (latest first), and whether a
    second line feed was met, that is whether a separator is complete. *)
Record blank_run : Type := {
  complete : bool;
  tail : pystr
}.

(** [re.split(r"\n\s*\n", text)].  A separator starts at a line feed and
    runs, through whitespace, up to the last line feed of that whitespace
    run; a line feed whose whitespace run holds no other line feed separates
    nothing. *)
Fixpoint split_blank_lines (cur : pystr) (pend : option blank_run)
    (text : pystr) : list pystr :=
  match text with
  | [] =>
      match pend with
      | None => [rev cur]
      | Some r =>
          if complete r then [rev cur; rev (tail r)]
          else [rev (tail r ++ 10%N :: cur)]
      end
  | c :: t =>
      match pend with
      | None =>
          if (c =? 10)%N
          then split_blank_lines cur (Some {| complete := false; tail := [] |}) t
          else split_blank_lines (c :: cur) None t
      | Some r =>
          if (c =? 10)%N
          then split_blank_lines cur (Some {| complete := true; tail := [] |}) t
          else if isspace c
          then split_blank_lines cur
                 (Some {| complete := complete r; tail := c :: tail r |}) t
          else if complete r
          then rev cur :: split_blank_lines (c :: tail r) None t
          else split_blank_lines (c :: tail r ++ 10%N :: cur) None t
      end
  end.

(** [len(p.split())]: the number of maximal runs of non-whitespace. *)
Fixpoint count_split_words (in_word : bool) (p : pystr) : Z :=
  match p with
  | [] => 0%Z
  | c :: t =>
      if isspace c then count_split_words false t
      else if in_word then count_split_words true t
      else (1 + count_split_words true t)%Z
  end.

(** [needle in hay] *)
Fixpoint contains (hay needle : pystr) : bool :=
  is_prefix needle hay
  || match hay with
     | [] => false
     | _ :: t => contains t needle
     end.

(** [sep.join(xs)] *)
Fixpoint join (sep : pystr) (xs : list pystr) : pystr :=
  match xs with
  | [] => []
  | [x] => x
  | x :: rest => x ++ sep ++ join sep rest
  end.

(** [s.split(",")] *)
Fixpoint split_comma (cur : pystr) (s : pystr) : list pystr :=
  match s with
  | [] => [rev cur]
  | c :: t =>
      if (c =? 44)%N then rev cur :: split_comma [] t
      else split_comma (c :: cur) t
  end.

Section Engine.

(** The runtime's Unicode database. *)
Variable ucd : unicode_db.

(** [\w] in a [str] pattern: [chr(c).isalnum() or c == "_"]. *)
Definition is_word (c : N) : bool :=
  if is_ascii c
  then is_upper c || is_lower c || is_ascii_digit c || (c =? 95)%N
  else ucd_isalnum ucd c.

(** [s.lower()] *)
Definition lower (s : pystr) : pystr :=
  if forallb is_ascii s then map ascii_lower_char s else ucd_lower ucd s.

(** [w.isdigit()]: a non-empty string of digits. *)
Definition isdigit (w : pystr) : bool :=
  negb (is_empty w)
  && forallb (fun c => if is_ascii c then is_ascii_digit c else ucd_isdigit ucd c) w.

(** A literal [p] of a pattern compiled with [re.IGNORECASE] against the
    character [c]. *)
Definition ignorecase_eq (p c : N) : bool :=
  if is_ascii p && is_ascii c
  then (ascii_lower_char p =? ascii_lower_char c)%N
  else ucd_ignorecase_eq ucd p c.

Definition is_word_opt (c : option N) : bool :=
  match c with
  | Some c => is_word c
  | None => false
  end.

(** [\b] between the character before ([None] at the start of the text) and
    the character after ([None] at its end). *)
Definition word_boundary (before after : option N) : bool :=
  xorb (is_word_opt before) (is_word_opt after).

(** ** Heading extractor *)

(** [re.match(r"^\s*(#{1,6})\s+\S+", line)] and [len(m.group(1))]: leading
    whitespace, a run of one to six [#] (a longer run does not match, since
    [\s+] cannot start at a [#]), whitespace, one character that is not
    whitespace. *)
Fixpoint count_hashes (s : pystr) : nat * pystr :=
  match s with
  | 35%N :: t => let '(n, rest) := count_hashes t in (S n, rest)
  | _ => (O, s)
  end.

Definition md_heading_level (line : pystr) : option Z :=
  let '(n, rest) := count_hashes (lstrip line) in
  if (1 <=? n)%nat && (n <=? 6)%nat then
    match rest with
    | c :: rest' =>
        if isspace c then
          match lstrip rest' with
          | [] => None
          | _ => Some (Z.of_nat n)
          end
        else None
    | [] => None
    end
  else None.

(** The key [f"h{level}"] for a level of one digit. *)
Definition hkey (level : Z) : pystr := [104%N; (48 + Z.to_N level)%N].

(** The body of the loop over the lines: [md_counts[f"h{level}"] += 1] when
    the line matches. *)
Definition md_step (md_counts : Counter) (line : pystr) : Counter :=
  match md_heading_level line with
  | Some level => counter_add md_counts (hkey level) 1
  | None => md_counts
  end.

(** [len(re.findall(fr"<h{level}\b", text, flags=re.IGNORECASE))]: the
    places where [<], [h] or [H], and the digit of [level] stand before a
    character that is not a word character, or before the end. *)
Fixpoint count_open_tags (level : Z) (text : pystr) : Z :=
  match text with
  | [] => 0%Z
  | c :: t =>
      ((if (c =? 60)%N
           && match t with
              | h :: d :: after =>
                  ((h =? 104)%N || (h =? 72)%N)
                  && (d =? 48 + Z.to_N level)%N
                  && word_boundary (Some d) (hd_error after)
              | _ => false
              end
        then 1 else 0)
       + count_open_tags level t)%Z
  end.

Definition levels : list Z := [1; 2; 3; 4; 5; 6]%Z.

Definition extract_headings (text : pystr) : dict Z :=
  let md_counts : Counter := fold_left md_step (splitlines text) [] in
  let html_counts : Counter :=
    fold_left
      (fun html level => dict_set html (hkey level) (count_open_tags level text))
      levels [] in
  let combined := counter_update (counter_update [] md_counts) html_counts in
  map (fun i => (hkey i, counter_get combined (hkey i))) levels.

(** ** Keyword analyzer *)

(** The pattern [target] (every character escaped, hence literal) from
    here on, then [\b]. [before] is the character before this place. *)
Fixpoint literal_then_boundary (target : pystr) (before : option N)
    (text : pystr) : bool :=
  match target with
  | [] => word_boundary before (hd_error text)
  | p :: target' =>
      match text with
      | [] => false
      | c :: t => ignorecase_eq p c && literal_then_boundary target' (Some c) t
      end
  end.

(** [len(re.findall(rf"\b{re.escape(target)}\b", text, flags=re.IGNORECASE))]
    for a non-empty [target]: matches are taken left to right and do not
    overlap; [skip] counts the characters of the last match still to pass. *)
Fixpoint count_phrase (target : pystr) (skip : nat) (before : option N)
    (text : pystr) : Z :=
  match text with
  | [] => 0%Z
  | c :: t =>
      match skip with
      | S k => count_phrase target k (Some c) t
      | O =>
          if word_boundary before (Some c)
             && literal_then_boundary target before text
          then (1 + count_phrase target (length target - 1) (Some c) t)%Z
          else count_phrase target O (Some c) t
      end
  end.

Definition keyword_metrics (words : list pystr) (target related : pystr)
    : py (Keywords * Flags) :=
  let total_words := len words in
  let freq := Counter_of words in
  let target_clean := lower (strip target) in
  let related_list :=
    map (fun r => lower (strip r)) (filter nonblank (split_comma [] related)) in
  let target_phrase_count :=
    if is_empty target_clean then 0%Z
    else
      let joined := join (lit " ") words in
      count_phrase target_clean O None joined in
  density <-
    (if (0 <? total_words)%Z
     then q <- truediv target_phrase_count total_words ;; Ok (q * 100)%float
     else Ok 0%float) ;;
  let related_counts :=
    dict_of (map (fun r => (r, counter_get freq r)) related_list) in
  let top_words :=
    filter (fun wc => (2 <? len (fst wc))%Z && negb (isdigit (fst wc)))
           (most_common freq 25) in
  let kw :=
    {| target_keyword := target_clean;
       target_count := target_phrase_count;
       target_density_percent := py_round density 2;
       related_keywords := related_list;
       related_counts := related_counts;
       top_terms := firstn 15 top_words |} in
  let flags :=
    {| has_target := negb (is_empty target_clean) && (0 <? target_phrase_count)%Z;
       density_low := negb (is_empty target_clean) && (density <? 0.5)%float;
       density_high := negb (is_empty target_clean) && (3.0 <? density)%float |} in
  Ok (kw, flags).

(** ** Suggestion engine *)

(** [d.get(k, 0)] *)
Definition get0 (d : dict Z) (k : pystr) : Z :=
  match dict_get d k with
  | Some n => n
  | None => 0%Z
  end.

(** [[p.strip() for p in re.split(r"\n\s*\n", text) if p.strip()]] *)
Definition paragraphs (text : pystr) : list pystr :=
  map strip (filter nonblank (split_blank_lines [] None text)).

(** [xs.append(msg)] when [cond] holds. *)
Definition append_if (cond : bool) (msg : pystr) (xs : list pystr) : list pystr :=
  if cond then xs ++ [msg] else xs.

Definition make_suggestions (text : pystr) (words sentences : list pystr)
    (headings : dict Z) (kw : Keywords) (kw_flags : Flags)
    (meta_title meta_desc : pystr) : py (list pystr) :=
  let suggestions : list pystr := [] in
  let word_count := len words in
  let sentence_count := len sentences in
  let suggestions :=
    if (word_count <? 300)%Z then suggestions ++ [MSG_ADD_DEPTH]
    else if (2000 <? word_count)%Z then suggestions ++ [MSG_TRIM]
    else suggestions in
  suggestions <-
    (if (0 <? sentence_count)%Z then
       avg_sentence_len <- truediv word_count sentence_count ;;
       Ok (append_if (22 <? avg_sentence_len)%float MSG_SHORTEN_SENTENCES suggestions)
     else Ok suggestions) ;;
  (* Headings *)
  let suggestions :=
    if (get0 headings (lit "h1") =? 0)%Z then suggestions ++ [MSG_ADD_H1]
    else if (1 <? get0 headings (lit "h1"))%Z then suggestions ++ [MSG_ONE_H1]
    else suggestions in
  let suggestions :=
    append_if (get0 headings (lit "h2") =? 0)%Z MSG_ADD_H2 suggestions in
  let suggestions :=
    append_if ((get0 headings (lit "h3") =? 0)%Z && (700 <=? word_count)%Z)
              MSG_ADD_H3 suggestions in
  (* Keyword guidance *)
  let target := target_keyword kw in
  let suggestions :=
    if negb (is_empty target) then
      let suggestions :=
        append_if (negb (has_target kw_flags)) MSG_INCLUDE_TARGET suggestions in
      let suggestions :=
        append_if (density_low kw_flags) MSG_DENSITY_LOW suggestions in
      append_if (density_high kw_flags) MSG_DENSITY_HIGH suggestions
    else suggestions ++ [MSG_ADD_TARGET] in
  (* Meta title / description checks *)
  let mt := strip meta_title in
  let md := strip meta_desc in
  let suggestions :=
    if is_empty mt then suggestions ++ [MSG_ADD_META_TITLE]
    else
      let suggestions :=
        append_if (len mt <? 35)%Z MSG_META_TITLE_SHORT suggestions in
      let suggestions :=
        append_if (65 <? len mt)%Z MSG_META_TITLE_LONG suggestions in
      append_if (negb (is_empty target) && negb (contains (lower mt) target))
                MSG_META_TITLE_KEYWORD suggestions in
  let suggestions :=
    if is_empty md then suggestions ++ [MSG_ADD_META_DESC]
    else
      let suggestions :=
        append_if (len md <? 90)%Z MSG_META_DESC_SHORT suggestions in
      let suggestions :=
        append_if (170 <? len md)%Z MSG_META_DESC_LONG suggestions in
      append_if (negb (is_empty target) && negb (contains (lower md) target))
                MSG_META_DESC_KEYWORD suggestions in
  (* Paragraph length heuristic *)
  let paras := paragraphs text in
  let long_paras :=
    filter (fun p => (110 <? count_split_words false p)%Z) paras in
  let suggestions :=
    append_if (negb (is_empty long_paras)) MSG_LONG_PARAGRAPHS suggestions in
  Ok suggestions.

(** ** Orchestrator *)

Definition analyze (payload : Payload) : py AnalysisResult :=
  let raw_text := get_or_empty (payload_content payload) in
  let target_keyword := get_or_empty (payload_target_keyword payload) in
  let related := get_or_empty (payload_related_keywords payload) in
  let meta_title := get_or_empty (payload_meta_title payload) in
  let meta_desc := get_or_empty (payload_meta_description payload) in
  let text := normalize_text raw_text in
  let words := tokenize_words text in
  let sentences := split_sentences text in
  (* Basic stats *)
  let word_count := len words in
  let char_count := len text in
  let sentence_count := len sentences in
  let paragraph_count :=
    len (filter nonblank (split_blank_lines [] None raw_text)) in
  q <- truediv word_count (Z.max 1 sentence_count) ;;
  let avg_words_per_sentence := py_round q 2 in
  (* Readability *)
  flesch <- flesch_reading_ease words sentences ;;
  let readability :=
    {| r_flesch_reading_ease := flesch;
       r_level := score_band flesch;
       r_avg_words_per_sentence := avg_words_per_sentence |} in
  (* Headings *)
  let heading_counts := extract_headings raw_text in
  (* Keywords *)
  kwf <- keyword_metrics words target_keyword related ;;
  let '(kw, kw_flags) := kwf in
  (* Suggestions *)
  suggestions <-
    make_suggestions raw_text words sentences heading_counts kw kw_flags
                     meta_title meta_desc ;;
  Ok {| stats :=
          {| word_count := word_count;
             character_count := char_count;
             sentence_count := sentence_count;
             paragraph_count := paragraph_count |};
        keywords := kw;
        headings := heading_counts;
        readability := readability;
        suggestions := suggestions |}.

End Engine.

(** ** Reference notions the properties are stated with *)

(** The number of times [w] stands in [words]. *)
Definition occurrences (w : pystr) (words : list pystr) : Z :=
  len (filter (pystr_eqb w) words).

(** The distinct tokens, in the order of their first occurrence. *)
Fixpoint first_occurrences (words : list pystr) : list pystr :=
  match words with
  | [] => []
  | w :: t => w :: filter (fun x => negb (pystr_eqb w x)) (first_occurrences t)
  end.

(** Every distinct token with its frequency, first-encountered first. *)
Definition frequency_table (words : list pystr) : list (pystr * Z) :=
  map (fun w => (w, occurrences w words)) (first_occurrences words).

(** An entry whose term is longer than two characters and not purely
    numeric. *)
Definition reportable (ucd : unicode_db) (wc : pystr * Z) : bool :=
  (2 <? len (fst wc))%Z && negb (isdigit ucd (fst wc)).

(** Top terms as the specification words them: rank all tokens by
    frequency, keep the reportable entries, take the top 25 of those, report
    the first 15. *)
Definition top_terms_filter_first (ucd : unicode_db) (words : list pystr)
    : list (pystr * Z) :=
  firstn 15
    (firstn 25 (filter (reportable ucd) (sort_by_count (frequency_table words)))).

(** Top terms with the cut before the filter: rank all tokens by frequency,
    take the top 25 entries, keep the reportable ones, report the first 15. *)
Definition top_terms_cut_first (ucd : unicode_db) (words : list pystr)
    : list (pystr * Z) :=
  firstn 15
    (filter (reportable ucd) (firstn 25 (sort_by_count (frequency_table words)))).

(** The markdown detector's count for one level: the lines that are a
    heading of that level. *)
Definition md_count (level : Z) (text : pystr) : Z :=
  len (filter (fun line =>
                 match md_heading_level line with
                 | Some l => (l =? level)%Z
                 | None => false
                 end)
              (splitlines text)).

(** [xs] occurs in [ys] in the same relative order. *)
Inductive subsequence {A : Type} : list A -> list A -> Prop :=
| subseq_nil : forall ys, subsequence [] ys
| subseq_take : forall x xs ys, subsequence xs ys -> subsequence (x :: xs) (x :: ys)
| subseq_skip : forall y xs ys, subsequence xs ys -> subsequence xs (y :: ys).

(** Deciding [subsequence] on explicit lists, taking every head that
    matches. *)
Ltac subseq_solve :=
  repeat first [apply subseq_nil | apply subseq_take | apply subseq_skip].

(** Twenty-five one-letter tokens, [a] to [y]. *)
Definition one_letter_tokens : list pystr :=
  map (fun c => [N.of_nat c]) (seq 97 25).

(** A token sequence whose twenty-five most frequent tokens are all too
    short to report. *)
Definition short_heavy_tokens : list pystr :=
  one_letter_tokens ++ one_letter_tokens ++ [lit "keyword"].

(** The request of the end-to-end scenario. *)
Definition scenario_payload : Payload :=
  {| payload_content :=
       Some (lit "# My Title" ++ [10%N; 10%N]
             ++ lit "This is a test. It has two sentences.");
     payload_target_keyword := Some (lit "test");
     payload_related_keywords := Some (lit "sentence, example");
     payload_meta_title := Some [];
     payload_meta_description := Some [] |}.

(** A request with only its content and related keywords filled in. *)
Definition content_payload (content related : pystr) : Payload :=
  {| payload_content := Some content;
     payload_target_keyword := None;
     payload_related_keywords := Some related;
     payload_meta_title := None;
     payload_meta_description := None |}.

(** A document of fifty words and no heading. *)
Definition fifty_words : pystr :=
  join (lit " ") (repeat (lit "word") 50).

(** Whitespace of [s] is made of lone spaces: every whitespace character
    is U+0020 and follows a character that is no whitespace ([in_run] tells
    whether whitespace stands just before [s]). *)
Fixpoint single_spaced (in_run : bool) (s : pystr) : Prop :=
  match s with
  | [] => True
  | c :: t =>
      if isspace c then c = 32%N /\ in_run = false /\ single_spaced true t
      else single_spaced false t
  end.

(** The three quotation marks [normalize_text] replaces. *)
Definition is_smart_quote (c : N) : bool :=
  (c =? 8217)%N || (c =? 8220)%N || (c =? 8221)%N.

(** * Properties *)

(** ** Strings *)

Lemma pystr_eqb_true (a b : pystr) : pystr_eqb a b = true <-> a = b.
Proof.
  revert b. induction a as [|x a IH]; intros [|y b]; simpl;
    try (split; congruence).
  rewrite andb_true_iff, N.eqb_eq, IH. split.
  - intros [-> ->]. reflexivity.
  - intros E. injection E. auto.
Qed.

Lemma pystr_eqb_false (a b : pystr) : pystr_eqb a b = false <-> a <> b.
Proof.
  rewrite <- pystr_eqb_true. destruct (pystr_eqb a b); split; congruence.
Qed.

Lemma pystr_eqb_refl (a : pystr) : pystr_eqb a a = true.
Proof. now apply pystr_eqb_true. Qed.

Lemma pystr_eqb_sym (a b : pystr) : pystr_eqb a b = pystr_eqb b a.
Proof.
  destruct (pystr_eqb b a) eqn:E.
  - apply pystr_eqb_true in E. subst. apply pystr_eqb_refl.
  - apply pystr_eqb_false in E. apply pystr_eqb_false. congruence.
Qed.

Lemma lstrip_idem (s : pystr) : lstrip (lstrip s) = lstrip s.
Proof.
  induction s as [|c t IH]; simpl; [reflexivity|].
  destruct (isspace c) eqn:E; [exact IH|]. simpl. now rewrite E.
Qed.

Lemma lstrip_snoc (s : pystr) (c : N) :
  lstrip (s ++ [c]) =
  match lstrip s with
  | [] => if isspace c then [] else [c]
  | _ => lstrip s ++ [c]
  end.
Proof.
  induction s as [|a t IH]; simpl; [reflexivity|].
  destruct (isspace a); [exact IH | reflexivity].
Qed.

(** [rstrip] read from the left. *)
Lemma rstrip_cons (c : N) (s : pystr) :
  rstrip (c :: s) =
  match rstrip s with
  | [] => if isspace c then [] else [c]
  | _ => c :: rstrip s
  end.
Proof.
  unfold rstrip. simpl. rewrite lstrip_snoc.
  destruct (lstrip (rev s)) as [|a l] eqn:E; simpl.
  - destruct (isspace c); reflexivity.
  - rewrite rev_app_distr. simpl.
    destruct (rev l ++ [a]) eqn:E2; [destruct (rev l); discriminate | reflexivity].
Qed.

Lemma rstrip_nil : rstrip [] = [].
Proof. reflexivity. Qed.

Lemma rstrip_idem (s : pystr) : rstrip (rstrip s) = rstrip s.
Proof.
  unfold rstrip. rewrite rev_involutive, lstrip_idem. reflexivity.
Qed.

(** Stripping on the right leaves a first character that is no whitespace
    in place. *)
Lemma lstrip_rstrip_fixed (s : pystr) :
  lstrip s = s -> lstrip (rstrip s) = rstrip s.
Proof.
  destruct s as [|c t]; [reflexivity|]. simpl.
  destruct (isspace c) eqn:E.
  - intros H. exfalso.
    assert (L : forall u, (length (lstrip u) <= length u)%nat).
    { induction u as [|a u IH]; simpl; [lia|]. destruct (isspace a); simpl; lia. }
    specialize (L t). rewrite H in L. simpl in L. lia.
  - intros _. rewrite rstrip_cons.
    destruct (rstrip t); rewrite ?E; simpl; now rewrite E.
Qed.

Lemma strip_idem (s : pystr) : strip (strip s) = strip s.
Proof.
  unfold strip.
  rewrite (lstrip_rstrip_fixed (lstrip s) (lstrip_idem s)).
  apply rstrip_idem.
Qed.

(** Characters that are no whitespace survive stripping. *)
Lemma In_lstrip (c : N) (s : pystr) :
  isspace c = false -> In c s -> In c (lstrip s).
Proof.
  intros Hc. induction s as [|a t IH]; simpl; [tauto|].
  intros [->|H].
  - rewrite Hc. now left.
  - destruct (isspace a); [auto | now right].
Qed.

Lemma In_rstrip (c : N) (s : pystr) :
  isspace c = false -> In c s -> In c (rstrip s).
Proof.
  intros Hc H. unfold rstrip. apply in_rev in H.
  rewrite <- in_rev. now apply In_lstrip.
Qed.

Lemma In_strip (c : N) (s : pystr) :
  isspace c = false -> In c s -> In c (strip s).
Proof.
  intros Hc H. unfold strip. now apply In_rstrip, In_lstrip.
Qed.

Lemma nonblank_of_In (c : N) (p : pystr) :
  isspace c = false -> In c p -> nonblank p = true.
Proof.
  intros Hc H. unfold nonblank.
  destruct (strip p) eqn:E; [|reflexivity].
  apply (In_strip c p Hc) in H. rewrite E in H. destruct H.
Qed.

(** ** Normalisation *)

Lemma sub_ws_runs_single_spaced (b : bool) (s : pystr) :
  single_spaced b (sub_ws_runs b s).
Proof.
  revert b. induction s as [|c t IH]; intros b; simpl; [exact I|].
  destruct (isspace c) eqn:E.
  - destruct b; [apply IH|]. simpl. change (isspace 32) with true. cbv iota.
    repeat split. apply IH.
  - simpl. rewrite E. apply IH.
Qed.

Lemma single_spaced_fixed (b : bool) (s : pystr) :
  single_spaced b s -> sub_ws_runs b s = s.
Proof.
  revert b. induction s as [|c t IH]; intros b; simpl; [reflexivity|].
  destruct (isspace c).
  - intros (-> & -> & H). now rewrite (IH true H).
  - intros H. now rewrite (IH false H).
Qed.

Lemma single_spaced_weaken (b : bool) (s : pystr) :
  single_spaced b s -> single_spaced false s.
Proof.
  destruct s as [|c t]; simpl; [trivial|].
  destruct (isspace c); [|trivial]. intros (-> & _ & H). auto.
Qed.

Lemma single_spaced_lstrip (b : bool) (s : pystr) :
  single_spaced b s -> single_spaced false (lstrip s).
Proof.
  revert b. induction s as [|c t IH]; intros b; simpl; [trivial|].
  destruct (isspace c) eqn:E.
  - intros (_ & _ & H). now apply (IH true).
  - intros H. simpl. now rewrite E.
Qed.

Lemma single_spaced_rstrip (b : bool) (s : pystr) :
  single_spaced b s -> single_spaced b (rstrip s).
Proof.
  revert b. induction s as [|c t IH]; intros b; [trivial|].
  rewrite rstrip_cons. simpl.
  destruct (isspace c) eqn:E.
  - intros (-> & -> & H). specialize (IH true H).
    destruct (rstrip t) eqn:R; [exact I|].
    simpl. change (isspace 32) with true. cbv iota. repeat split. exact IH.
  - intros H. specialize (IH false H).
    destruct (rstrip t) eqn:R; simpl; rewrite E; [exact I | exact IH].
Qed.

Lemma replace_char_absent (a b : N) (s : pystr) :
  Forall (fun c => (c =? a)%N = false) s -> replace_char a b s = s.
Proof.
  induction 1 as [|c t Hc _ IH]; simpl; [reflexivity|].
  now rewrite Hc, IH.
Qed.

Lemma Forall_lstrip (P : N -> Prop) (s : pystr) :
  Forall P s -> Forall P (lstrip s).
Proof.
  induction 1 as [|c t Hc Ht IH]; simpl; [constructor|].
  destruct (isspace c); [exact IH | now constructor].
Qed.

Lemma Forall_strip (P : N -> Prop) (s : pystr) :
  Forall P s -> Forall P (strip s).
Proof.
  intros H. unfold strip, rstrip.
  apply Forall_rev, Forall_lstrip, Forall_rev, Forall_lstrip, H.
Qed.

Lemma Forall_sub_ws_runs (P : N -> Prop) (b : bool) (s : pystr) :
  P 32%N -> Forall P s -> Forall P (sub_ws_runs b s).
Proof.
  intros H32 H. revert b.
  induction H as [|c t Hc Ht IH]; intros b; simpl; [constructor|].
  destruct (isspace c); [destruct b|]; auto.
Qed.

(** No quotation mark of the three is left after the replacements. *)
Lemma replaced_no_smart_quote (s : pystr) :
  Forall (fun c => is_smart_quote c = false)
    (replace_char 8221 34 (replace_char 8220 34 (replace_char 8217 39 s))).
Proof.
  unfold replace_char. rewrite !map_map. apply Forall_forall.
  intros c Hc. apply in_map_iff in Hc. destruct Hc as (x & <- & _).
  unfold is_smart_quote.
  destruct (x =? 8217)%N eqn:E1; [reflexivity|].
  destruct (x =? 8220)%N eqn:E2; [reflexivity|].
  destruct (x =? 8221)%N eqn:E3; [reflexivity|].
  now rewrite E1, E2, E3.
Qed.

Lemma normalize_text_no_smart_quote (s : pystr) :
  Forall (fun c => is_smart_quote c = false) (normalize_text s).
Proof.
  unfold normalize_text.
  apply Forall_strip, Forall_sub_ws_runs; [reflexivity|].
  apply replaced_no_smart_quote.
Qed.

Lemma normalize_text_single_spaced (s : pystr) :
  single_spaced false (normalize_text s).
Proof.
  unfold normalize_text, strip.
  apply single_spaced_rstrip, (single_spaced_lstrip false),
    sub_ws_runs_single_spaced.
Qed.

(** C4: normalising a normalised text changes nothing, for every string:
    [normalize_text (normalize_text s) = normalize_text s]. *)
Theorem normalize_text_idempotent (s : pystr) :
  normalize_text (normalize_text s) = normalize_text s.
Proof.
  pose proof (normalize_text_no_smart_quote s) as Q.
  pose proof (normalize_text_single_spaced s) as S.
  assert (R : forall a b, is_smart_quote a = true ->
            replace_char a b (normalize_text s) = normalize_text s).
  { intros a b Ha. apply replace_char_absent.
    eapply Forall_impl; [|exact Q]. intros c Hc. simpl in Hc.
    destruct (c =? a)%N eqn:E; [|reflexivity].
    apply N.eqb_eq in E. subst. congruence. }
  unfold normalize_text at 1.
  rewrite (R 8217%N 39%N eq_refl), (R 8220%N 34%N eq_refl),
    (R 8221%N 34%N eq_refl).
  rewrite (single_spaced_fixed false _ S).
  unfold normalize_text. apply strip_idem.
Qed.

(** ** Syllables *)

(** C9: [count_syllables] is 0 on the empty string and on every word whose
    letters-only reduction is empty, 2 on "simple", 1 on "the", and at least
    1 on every word with a letter a-z left after cleaning. *)
Theorem count_syllables_values :
  count_syllables [] = 0%Z
  /\ (forall word, letters_only word = [] -> count_syllables word = 0%Z)
  /\ count_syllables (lit "simple") = 2%Z
  /\ count_syllables (lit "the") = 1%Z
  /\ (forall word, letters_only word <> [] -> (1 <= count_syllables word)%Z).
Proof.
  repeat split; try reflexivity.
  - intros word H. unfold count_syllables. now rewrite H.
  - intros word H. unfold count_syllables.
    destruct (letters_only word); [congruence|]. apply Z.le_max_l.
Qed.

(** "Rhythm" has no vowel group but [y]; "cwm" has none at all and still
    counts one syllable; a word of digits counts none. *)
Lemma count_syllables_values_witness :
  count_syllables (lit "1234") = 0%Z /\ (1 <= count_syllables (lit "cwm"))%Z.
Proof.
  split.
  - apply (proj1 (proj2 count_syllables_values)). reflexivity.
  - apply (proj2 (proj2 (proj2 (proj2 count_syllables_values)))). discriminate.
Defined.

(** ** Readability *)

Lemma len_cons_pos {A : Type} (x : A) (xs : list A) : (1 <= len (x :: xs))%Z.
Proof. unfold len. simpl length. lia. Qed.

Lemma len_nonneg {A : Type} (xs : list A) : (0 <= len xs)%Z.
Proof. unfold len. lia. Qed.

Lemma truediv_nonzero (a b : Z) :
  b <> 0%Z -> truediv a b = Ok (float_of_int a / float_of_int b)%float.
Proof.
  intros H. unfold truediv. destruct (b =? 0)%Z eqn:E; [|reflexivity].
  apply Z.eqb_eq in E. contradiction.
Qed.

(** The score of two non-empty sequences, with the guards [max(1, _)]
    resolved. *)
Lemma flesch_reading_ease_nonempty (w : pystr) (ws : list pystr)
    (s : pystr) (ss : list pystr) :
  let words := w :: ws in
  let sentences := s :: ss in
  flesch_reading_ease words sentences =
  Ok (py_round
        (206.835
         - 1.015 * (float_of_int (len words) / float_of_int (len sentences))
         - 84.6 * (float_of_int (sum (map count_syllables words))
                   / float_of_int (len words)))%float
        1).
Proof.
  intros words sentences. unfold flesch_reading_ease.
  change (is_empty words || is_empty sentences) with false. cbv iota.
  pose proof (len_cons_pos w ws) as Hw. pose proof (len_cons_pos s ss) as Hs.
  fold words in Hw. fold sentences in Hs.
  rewrite !Z.max_r by assumption.
  rewrite !truediv_nonzero by lia. reflexivity.
Qed.

Lemma flesch_reading_ease_total (words sentences : list pystr) :
  exists score, flesch_reading_ease words sentences = Ok score.
Proof.
  destruct words as [|w ws]; [now exists 0%float|].
  destruct sentences as [|s ss]; [now exists 0%float|].
  eexists. apply flesch_reading_ease_nonempty.
Qed.

(** C5: the score is exactly 0.0 when the token sequence or the sentence
    sequence is empty; otherwise it is
    206.835 - 1.015 * (words / sentences) - 84.6 * (syllables / words)
    rounded to one decimal, and it is not clamped to [0, 100]: a one-letter
    one-sentence text scores 121.2 and a single eleven-syllable word scores
    below zero. *)
Theorem flesch_reading_ease_formula :
  (forall sentences, flesch_reading_ease [] sentences = Ok 0%float)
  /\ (forall words, flesch_reading_ease words [] = Ok 0%float)
  /\ (forall w ws s ss,
        flesch_reading_ease (w :: ws) (s :: ss) =
        Ok (py_round
              (206.835
               - 1.015 * (float_of_int (len (w :: ws)) / float_of_int (len (s :: ss)))
               - 84.6 * (float_of_int (sum (map count_syllables (w :: ws)))
                         / float_of_int (len (w :: ws))))%float
              1))
  /\ flesch_reading_ease [lit "a"] [lit "a"] = Ok 121.2%float
  /\ (100 <? 121.2)%float = true
  /\ flesch_reading_ease [lit "antidisestablishmentarianism"]
                         [lit "antidisestablishmentarianism"]
     = Ok (-640.2)%float
  /\ (-640.2 <? 0)%float = true.
Proof.
  split; [reflexivity|].
  split; [intros words; now destruct words|].
  split; [intros; apply flesch_reading_ease_nonempty|].
  repeat split; vm_compute; reflexivity.
Qed.

(** ** Words and sentences *)

Lemma WORD_RE_char_not_space (c : N) :
  is_WORD_RE_char c = true -> isspace c = false /\ is_terminator c = false.
Proof.
  unfold is_WORD_RE_char, is_upper, is_lower, is_ascii_digit, in_range.
  intros H.
  assert (B : (c = 39 \/ 48 <= c <= 57 \/ 65 <= c <= 90 \/ 97 <= c <= 122)%N).
  { repeat rewrite ?orb_true_iff, ?andb_true_iff, ?N.leb_le, ?N.eqb_eq in H. lia. }
  unfold isspace, is_terminator, in_range. split.
  - repeat rewrite ?orb_false_iff, ?andb_false_iff, ?N.leb_gt, ?N.eqb_neq. lia.
  - repeat rewrite ?orb_false_iff, ?N.eqb_neq. lia.
Qed.

(** A token comes from a character of the class of [WORD_RE]. *)
Lemma WORD_RE_findall_char (cur text : pystr) :
  WORD_RE_findall cur text <> [] ->
  cur <> [] \/ exists c, In c text /\ is_WORD_RE_char c = true.
Proof.
  revert cur. induction text as [|c t IH]; intros cur; simpl.
  - destruct cur; [intros F; now elim F | intros _; left; congruence].
  - destruct (is_WORD_RE_char c) eqn:E.
    + intros _. right. exists c. auto.
    + intros H. destruct cur as [|a cur']; [|left; congruence].
      simpl in H. destruct (IH [] H) as [F|(x & Hx & Hw)]; [congruence|].
      right. exists x. auto.
Qed.

Lemma tokenize_words_char (text : pystr) :
  tokenize_words text <> [] ->
  exists c, In c text /\ is_WORD_RE_char c = true.
Proof.
  unfold tokenize_words. intros H.
  destruct (WORD_RE_findall_char [] text) as [F|E]; [|congruence|exact E].
  intros E. now rewrite E in H.
Qed.

(** A character that neither ends a sentence nor is whitespace lands in a
    piece of the split. *)
Lemma split_terminators_keeps (c : N) (text cur pend : pystr) :
  is_terminator c = false -> isspace c = false ->
  In c cur \/ In c text ->
  exists p, In p (split_terminators cur pend text) /\ In c p.
Proof.
  intros Ht Hs. revert cur pend.
  induction text as [|a t IH]; intros cur pend H; simpl.
  - destruct H as [H|[]]. exists (rev cur). rewrite <- in_rev.
    destruct pend; simpl; auto.
  - destruct (is_terminator a) eqn:Ea.
    + apply IH. destruct H as [H|[->|H]]; auto. congruence.
    + destruct pend as [|q pend'].
      * apply IH. simpl. destruct H as [H|[->|H]]; auto.
      * destruct (isspace a) eqn:Es.
        -- destruct H as [H|[->|H]]; [| congruence |].
           ++ exists (rev cur). rewrite <- in_rev. simpl. auto.
           ++ destruct (IH [] [] (or_intror H)) as (p & Hp & Hc).
              exists p. simpl. auto.
        -- apply IH. destruct H as [H|[->|H]]; auto.
           ++ left. right. apply in_or_app. right. simpl. auto.
           ++ left. now left.
Qed.

(** A text with a word token has a sentence. *)
Lemma sentence_of_word (text : pystr) :
  tokenize_words text <> [] -> split_sentences text <> [].
Proof.
  intros H. destruct (tokenize_words_char text H) as (c & Hin & Hw).
  destruct (WORD_RE_char_not_space c Hw) as (Hs & Ht).
  unfold split_sentences.
  destruct (split_terminators_keeps c (strip text) [] [] Ht Hs) as (p & Hp & Hc).
  { right. now apply In_strip. }
  assert (F : In p (filter nonblank (split_terminators [] [] (strip text)))).
  { apply filter_In. split; [exact Hp|]. now apply (nonblank_of_In c). }
  intros E. apply (in_map strip) in F. rewrite E in F. destruct F.
Qed.

Lemma len_pos_iff {A : Type} (xs : list A) : (0 < len xs)%Z <-> xs <> [].
Proof.
  unfold len. destruct xs; simpl; split; intros H; try lia; congruence.
Qed.

(** ** Dictionaries and counters *)

Lemma dict_get_set_same {V : Type} (d : dict V) (k : pystr) (v : V) :
  dict_get (dict_set d k v) k = Some v.
Proof.
  induction d as [|[k' v'] d IH]; simpl.
  - now rewrite pystr_eqb_refl.
  - destruct (pystr_eqb k k') eqn:E; simpl; rewrite ?pystr_eqb_refl, ?E; auto.
Qed.

Lemma dict_get_set_other {V : Type} (d : dict V) (k k' : pystr) (v : V) :
  k' <> k -> dict_get (dict_set d k v) k' = dict_get d k'.
Proof.
  intros N. induction d as [|[k0 v0] d IH]; simpl.
  - apply pystr_eqb_false in N. now rewrite N.
  - destruct (pystr_eqb k k0) eqn:E; simpl.
    + apply pystr_eqb_true in E. subst k0.
      apply pystr_eqb_false in N. now rewrite N.
    + destruct (pystr_eqb k' k0); auto.
Qed.

Lemma counter_get_add_same (c : Counter) (k : pystr) (n : Z) :
  counter_get (counter_add c k n) k = (counter_get c k + n)%Z.
Proof.
  unfold counter_add. unfold counter_get at 1. now rewrite dict_get_set_same.
Qed.

Lemma counter_get_add_other (c : Counter) (k k' : pystr) (n : Z) :
  k' <> k -> counter_get (counter_add c k n) k' = counter_get c k'.
Proof.
  intros N. unfold counter_add, counter_get. now rewrite dict_get_set_other.
Qed.

Lemma Counter_of_snoc (words : list pystr) (w : pystr) :
  Counter_of (words ++ [w]) = counter_add (Counter_of words) w 1.
Proof. unfold Counter_of. now rewrite fold_left_app. Qed.

Lemma occurrences_snoc (r w : pystr) (words : list pystr) :
  occurrences r (words ++ [w]) =
  (occurrences r words + (if pystr_eqb r w then 1 else 0))%Z.
Proof.
  unfold occurrences, len. rewrite filter_app, length_app. simpl.
  destruct (pystr_eqb r w); simpl; lia.
Qed.

(** The counter of a token sequence holds, for every string, the number of
    tokens equal to it. *)
Lemma counter_get_Counter_of (words : list pystr) (r : pystr) :
  counter_get (Counter_of words) r = occurrences r words.
Proof.
  induction words as [|w words IH] using rev_ind; [reflexivity|].
  rewrite Counter_of_snoc, occurrences_snoc.
  destruct (pystr_eqb r w) eqn:E.
  - apply pystr_eqb_true in E. subst w. now rewrite counter_get_add_same, IH.
  - apply pystr_eqb_false in E. rewrite counter_get_add_other by exact E. lia.
Qed.

Lemma In_first_occurrences (w : pystr) (words : list pystr) :
  In w (first_occurrences words) <-> In w words.
Proof.
  induction words as [|a t IH]; simpl; [tauto|].
  rewrite filter_In, IH, negb_true_iff, pystr_eqb_false.
  destruct (list_eq_dec N.eq_dec a w); tauto.
Qed.

Lemma NoDup_first_occurrences (words : list pystr) :
  NoDup (first_occurrences words).
Proof.
  induction words as [|a t IH]; simpl; constructor.
  - rewrite filter_In, negb_true_iff, pystr_eqb_false. tauto.
  - now apply NoDup_filter.
Qed.

Lemma first_occurrences_snoc (w : pystr) (words : list pystr) :
  first_occurrences (words ++ [w]) =
  first_occurrences words ++ (if existsb (pystr_eqb w) words then [] else [w]).
Proof.
  induction words as [|a t IH]; simpl; [reflexivity|].
  rewrite IH, filter_app. do 2 f_equal.
  rewrite (pystr_eqb_sym w a).
  destruct (existsb (pystr_eqb w) t); simpl.
  - now rewrite orb_true_r.
  - rewrite orb_false_r. now destruct (pystr_eqb a w).
Qed.

Lemma existsb_pystr_eqb (w : pystr) (words : list pystr) :
  existsb (pystr_eqb w) words = true <-> In w words.
Proof.
  rewrite existsb_exists. split.
  - intros (x & Hx & E). apply pystr_eqb_true in E. now subst.
  - intros H. exists w. split; [exact H | apply pystr_eqb_refl].
Qed.

Lemma dict_set_map_absent (f : pystr -> Z) (ks : list pystr) (w : pystr) (v : Z) :
  ~ In w ks ->
  dict_set (map (fun x => (x, f x)) ks) w v = map (fun x => (x, f x)) ks ++ [(w, v)].
Proof.
  induction ks as [|a ks IH]; simpl; [reflexivity|].
  intros N. destruct (pystr_eqb w a) eqn:E.
  - apply pystr_eqb_true in E. subst. tauto.
  - rewrite IH by tauto. reflexivity.
Qed.

Lemma dict_set_map_present (f : pystr -> Z) (ks : list pystr) (w : pystr) (v : Z) :
  NoDup ks -> In w ks ->
  dict_set (map (fun x => (x, f x)) ks) w v =
  map (fun x => (x, if pystr_eqb w x then v else f x)) ks.
Proof.
  induction 1 as [|a ks Ha Hks IH]; simpl; [tauto|].
  destruct (pystr_eqb w a) eqn:E.
  - intros _. apply pystr_eqb_true in E. subst a. f_equal.
    apply map_ext_in. intros x Hx.
    destruct (pystr_eqb w x) eqn:E; [|reflexivity].
    apply pystr_eqb_true in E. subst x. contradiction.
  - intros [->|H]; [now rewrite pystr_eqb_refl in E|].
    now rewrite IH.
Qed.

(** [Counter(words)] is the frequency table of [words]: the distinct tokens
    in first-encountered order, each with its number of occurrences. *)
Lemma Counter_of_frequency_table (words : list pystr) :
  Counter_of words = frequency_table words.
Proof.
  induction words as [|w words IH] using rev_ind; [reflexivity|].
  rewrite Counter_of_snoc. unfold counter_add.
  rewrite counter_get_Counter_of, IH.
  unfold frequency_table. rewrite first_occurrences_snoc.
  destruct (existsb (pystr_eqb w) words) eqn:E.
  - rewrite app_nil_r.
    rewrite dict_set_map_present.
    + apply map_ext. intros x. rewrite occurrences_snoc, (pystr_eqb_sym w x).
      destruct (pystr_eqb x w) eqn:Ex; [|f_equal; lia].
      apply pystr_eqb_true in Ex. now subst.
    + apply NoDup_first_occurrences.
    + now apply In_first_occurrences, existsb_pystr_eqb.
  - assert (N : ~ In w (first_occurrences words)).
    { rewrite In_first_occurrences, <- existsb_pystr_eqb. congruence. }
    rewrite dict_set_map_absent by exact N.
    rewrite map_app. simpl. rewrite occurrences_snoc, pystr_eqb_refl.
    f_equal. apply map_ext_in. intros x Hx. rewrite occurrences_snoc.
    destruct (pystr_eqb x w) eqn:Ex; [|f_equal; lia].
    apply pystr_eqb_true in Ex. subst. contradiction.
Qed.

Lemma dict_get_fold_set (f : pystr -> Z) (l : list pystr) (d : dict Z) (r : pystr) :
  dict_get (fold_left (fun d kv => dict_set d (fst kv) (snd kv))
                      (map (fun r => (r, f r)) l) d) r =
  if existsb (pystr_eqb r) l then Some (f r) else dict_get d r.
Proof.
  revert d. induction l as [|a l IH]; intros d; simpl; [reflexivity|].
  rewrite IH. destruct (existsb (pystr_eqb r) l); [now rewrite orb_true_r|].
  rewrite orb_false_r. destruct (pystr_eqb r a) eqn:E.
  - apply pystr_eqb_true in E. subst a. apply dict_get_set_same.
  - apply pystr_eqb_false in E. now apply dict_get_set_other.
Qed.

(** A dictionary comprehension over [l] maps the members of [l], and
    nothing else. *)
Lemma dict_of_comprehension (f : pystr -> Z) (l : list pystr) (r : pystr) :
  (In r l -> dict_get (dict_of (map (fun r => (r, f r)) l)) r = Some (f r))
  /\ (~ In r l -> dict_get (dict_of (map (fun r => (r, f r)) l)) r = None).
Proof.
  unfold dict_of. rewrite dict_get_fold_set.
  destruct (existsb (pystr_eqb r) l) eqn:E.
  - apply existsb_pystr_eqb in E. tauto.
  - split; [|reflexivity]. intros H. apply existsb_pystr_eqb in H. congruence.
Qed.

(** ** Keyword metrics *)

(** [keyword_metrics] returns, and its fields are what the code assigns
    them. *)
Lemma keyword_metrics_returns (ucd : unicode_db) (words : list pystr)
    (target related : pystr) :
  exists kw flags,
    keyword_metrics ucd words target related = Ok (kw, flags)
    /\ target_keyword kw = lower ucd (strip target)
    /\ related_keywords kw =
       map (fun r => lower ucd (strip r)) (filter nonblank (split_comma [] related))
    /\ related_counts kw =
       dict_of (map (fun r => (r, counter_get (Counter_of words) r))
                    (related_keywords kw))
    /\ top_terms kw =
       firstn 15 (filter (reportable ucd) (most_common (Counter_of words) 25)).
Proof.
  unfold keyword_metrics.
  destruct (0 <? len words)%Z eqn:E.
  - apply Z.ltb_lt in E. rewrite truediv_nonzero by lia. simpl bind.
    do 2 eexists. repeat split.
  - simpl bind. do 2 eexists. repeat split.
Qed.

(** C2, as the code has it: for every token sequence the reported top terms
    are the first 15 of the reportable entries (term longer than two
    characters, not purely numeric) among the 25 most frequent tokens, ties
    by first-encountered order: the cut to 25 comes before the filter. *)
Theorem top_terms_cut_then_filter (ucd : unicode_db) (words : list pystr)
    (target related : pystr) :
  exists kw flags,
    keyword_metrics ucd words target related = Ok (kw, flags)
    /\ top_terms kw = top_terms_cut_first ucd words.
Proof.
  destruct (keyword_metrics_returns ucd words target related)
    as (kw & flags & E & _ & _ & _ & T).
  exists kw, flags. split; [exact E|].
  rewrite T. unfold top_terms_cut_first, most_common.
  now rewrite Counter_of_frequency_table.
Qed.

(** C2, as the specification words it, fails: when the 25 most frequent
    tokens are all one letter long, the code reports no term at all, while
    filtering before the cut would report the longer token behind them. *)
Lemma top_terms_filter_first_fails :
  exists kw flags,
    keyword_metrics ascii_only_db short_heavy_tokens [] [] = Ok (kw, flags)
    /\ top_terms kw = []
    /\ top_terms_filter_first ascii_only_db short_heavy_tokens
       = [(lit "keyword", 1%Z)]
    /\ top_terms kw <> top_terms_filter_first ascii_only_db short_heavy_tokens.
Proof.
  do 2 eexists. split; [vm_compute; reflexivity|].
  split; [reflexivity|]. split; [vm_compute; reflexivity|].
  vm_compute. discriminate.
Qed.

(** C7: every related term is counted by an exact look-up of the whole term
    among the tokens (the number of tokens equal to it), with no phrase or
    boundary matching; the related terms are the trimmed, lowered, non-blank
    pieces of the comma-separated string and nothing else has a count.
    Related "cat" against content "category cat cat" counts 2. *)
Theorem related_counts_exact (ucd : unicode_db) (words : list pystr)
    (target related : pystr) :
  (exists kw flags,
     keyword_metrics ucd words target related = Ok (kw, flags)
     /\ related_keywords kw =
        map (fun r => lower ucd (strip r))
            (filter nonblank (split_comma [] related))
     /\ (forall r, In r (related_keywords kw) ->
           dict_get (related_counts kw) r = Some (occurrences r words))
     /\ (forall r, ~ In r (related_keywords kw) ->
           dict_get (related_counts kw) r = None))
  /\ (exists res,
        analyze ucd (content_payload (lit "category cat cat") (lit "cat")) = Ok res
        /\ related_counts (keywords res) = [(lit "cat", 2%Z)]).
Proof.
  split.
  - destruct (keyword_metrics_returns ucd words target related)
      as (kw & flags & E & _ & R & C & _).
    exists kw, flags. split; [exact E|]. split; [exact R|].
    rewrite C.
    assert (X : map (fun r => (r, counter_get (Counter_of words) r)) (related_keywords kw)
                = map (fun r => (r, occurrences r words)) (related_keywords kw)).
    { apply map_ext. intros r. now rewrite counter_get_Counter_of. }
    rewrite X. split; intros r H;
      now apply (dict_of_comprehension (fun r => occurrences r words)).
  - eexists. split; vm_compute; reflexivity.
Qed.

(** ** Headings *)

Lemma hkey_inj (a b : Z) : (0 <= a)%Z -> (0 <= b)%Z -> hkey a = hkey b -> a = b.
Proof.
  intros Ha Hb E.
  assert (E' : (48 + Z.to_N a)%N = (48 + Z.to_N b)%N).
  { change (nth 1 (hkey a) 0%N = nth 1 (hkey b) 0%N). now rewrite E. }
  lia.
Qed.

Lemma md_heading_level_pos (line : pystr) (l : Z) :
  md_heading_level line = Some l -> (1 <= l)%Z.
Proof.
  unfold md_heading_level.
  destruct (count_hashes (lstrip line)) as [n rest].
  destruct ((1 <=? n)%nat && (n <=? 6)%nat) eqn:E; [|discriminate].
  apply andb_true_iff in E. destruct E as [E _]. apply Nat.leb_le in E.
  destruct rest as [|c rest']; [discriminate|].
  destruct (isspace c); [|discriminate].
  destruct (lstrip rest'); [discriminate|].
  intros H. injection H as <-. lia.
Qed.

Lemma counter_get_absent (c : Counter) (k : pystr) :
  ~ In k (map fst c) -> counter_get c k = 0%Z.
Proof.
  unfold counter_get. induction c as [|[k' v] c IH]; simpl; [reflexivity|].
  intros N. destruct (pystr_eqb k k') eqn:E.
  - apply pystr_eqb_true in E. subst. tauto.
  - apply IH. tauto.
Qed.

Lemma In_keys_dict_set {V : Type} (d : dict V) (k k' : pystr) (v : V) :
  In k' (map fst (dict_set d k v)) -> k' = k \/ In k' (map fst d).
Proof.
  induction d as [|[k0 v0] d IH]; simpl; [intuition auto|].
  destruct (pystr_eqb k k0) eqn:E; simpl.
  - apply pystr_eqb_true in E. subst. intuition auto.
  - intros [H|H]; [tauto|]. destruct (IH H); tauto.
Qed.

Lemma NoDup_keys_dict_set {V : Type} (d : dict V) (k : pystr) (v : V) :
  NoDup (map fst d) -> NoDup (map fst (dict_set d k v)).
Proof.
  induction d as [|[k0 v0] d IH]; simpl.
  - intros _. constructor; [tauto | constructor].
  - intros H. inversion H as [|? ? Hn Hd]; subst.
    destruct (pystr_eqb k k0) eqn:E; simpl.
    + apply pystr_eqb_true in E. subst. now constructor.
    + constructor; [|now apply IH].
      intros I. apply In_keys_dict_set in I. destruct I as [->|I]; [|tauto].
      now rewrite pystr_eqb_refl in E.
Qed.

(** Adding a counter with distinct keys adds its counts key by key. *)
Lemma counter_get_update (other c : Counter) (k : pystr) :
  NoDup (map fst other) ->
  counter_get (counter_update c other) k = (counter_get c k + counter_get other k)%Z.
Proof.
  unfold counter_update. revert c.
  induction other as [|[k0 v0] o IH]; intros c H; simpl.
  - unfold counter_get at 3. simpl. lia.
  - inversion H as [|? ? Hn Hd]; subst. rewrite IH by exact Hd.
    unfold counter_get at 4. simpl.
    destruct (pystr_eqb k k0) eqn:E.
    + apply pystr_eqb_true in E. subst k0.
      rewrite counter_get_add_same, (counter_get_absent o k Hn). lia.
    + apply pystr_eqb_false in E. rewrite counter_get_add_other by exact E.
      reflexivity.
Qed.

Lemma md_loop_keys (lines : list pystr) (c : Counter) :
  NoDup (map fst c) -> NoDup (map fst (fold_left md_step lines c)).
Proof.
  revert c. induction lines as [|a t IH]; intros c H; simpl; [exact H|].
  apply IH. unfold md_step. destruct (md_heading_level a); [|exact H].
  now apply NoDup_keys_dict_set.
Qed.

Lemma md_loop_count (lines : list pystr) (c : Counter) (i : Z) :
  (0 <= i)%Z ->
  counter_get (fold_left md_step lines c) (hkey i) =
  (counter_get c (hkey i)
   + len (filter (fun line =>
                    match md_heading_level line with
                    | Some l => (l =? i)%Z
                    | None => false
                    end) lines))%Z.
Proof.
  intros Hi. revert c. induction lines as [|a t IH]; intros c; simpl.
  - unfold len. simpl. lia.
  - rewrite IH. unfold md_step.
    destruct (md_heading_level a) as [l|] eqn:E; [|reflexivity].
    apply md_heading_level_pos in E.
    destruct (l =? i)%Z eqn:El.
    + apply Z.eqb_eq in El. subst l. rewrite counter_get_add_same.
      unfold len. simpl length. lia.
    + apply Z.eqb_neq in El. rewrite counter_get_add_other; [reflexivity|].
      intros X. apply hkey_inj in X; lia.
Qed.

(** The six counts of [extract_headings], level by level. *)
Lemma extract_headings_counts (ucd : unicode_db) (text : pystr) :
  extract_headings ucd text =
  map (fun i => (hkey i, (md_count i text + count_open_tags ucd i text)%Z)) levels.
Proof.
  unfold extract_headings.
  set (md := fold_left md_step (splitlines text) []).
  set (html := fold_left
                 (fun html level =>
                    dict_set html (hkey level) (count_open_tags ucd level text))
                 levels []).
  assert (Hhtml : html = map (fun i => (hkey i, count_open_tags ucd i text)) levels)
    by reflexivity.
  assert (Nmd : NoDup (map fst md)) by (apply md_loop_keys; constructor).
  assert (Nhtml : NoDup (map fst html)).
  { rewrite Hhtml, map_map. simpl.
    repeat (constructor; [simpl; intuition discriminate|]). constructor. }
  apply map_ext_in. intros i Hi. f_equal.
  rewrite !counter_get_update by (assumption || constructor).
  assert (P : (0 <= i)%Z) by (simpl in Hi; lia).
  unfold md. rewrite md_loop_count by exact P.
  unfold md_count. rewrite Hhtml.
  simpl in Hi.
  destruct Hi as [<-|[<-|[<-|[<-|[<-|[<-|[]]]]]]]; reflexivity.
Qed.

(** C6: for every string [extract_headings] returns the six keys h1 to h6,
    each with the markdown count plus the tag count of its level;
    "# Title\n## Sub" gives h1 = 1 and h2 = 1, "<h2>X</h2><h2>Y</h2>" gives
    h2 = 2, all other levels 0, and a text with a markdown and a tag heading
    of level 1 gives h1 = 2. *)
Theorem extract_headings_all_levels (ucd : unicode_db) (text : pystr) :
  extract_headings ucd text =
    [ (lit "h1", (md_count 1 text + count_open_tags ucd 1 text)%Z);
      (lit "h2", (md_count 2 text + count_open_tags ucd 2 text)%Z);
      (lit "h3", (md_count 3 text + count_open_tags ucd 3 text)%Z);
      (lit "h4", (md_count 4 text + count_open_tags ucd 4 text)%Z);
      (lit "h5", (md_count 5 text + count_open_tags ucd 5 text)%Z);
      (lit "h6", (md_count 6 text + count_open_tags ucd 6 text)%Z) ]
  /\ extract_headings ucd (lit "# Title" ++ [10%N] ++ lit "## Sub") =
       [ (lit "h1", 1%Z); (lit "h2", 1%Z); (lit "h3", 0%Z);
         (lit "h4", 0%Z); (lit "h5", 0%Z); (lit "h6", 0%Z) ]
  /\ extract_headings ucd (lit "<h2>X</h2><h2>Y</h2>") =
       [ (lit "h1", 0%Z); (lit "h2", 2%Z); (lit "h3", 0%Z);
         (lit "h4", 0%Z); (lit "h5", 0%Z); (lit "h6", 0%Z) ]
  /\ extract_headings ucd (lit "# Title" ++ [10%N] ++ lit "<H1>Title</H1>") =
       [ (lit "h1", 2%Z); (lit "h2", 0%Z); (lit "h3", 0%Z);
         (lit "h4", 0%Z); (lit "h5", 0%Z); (lit "h6", 0%Z) ].
Proof.
  split; [apply extract_headings_counts|].
  repeat split; vm_compute; reflexivity.
Qed.

(** ** Suggestions *)

(** The rules on a 50-word text with no H1, no H2, no target keyword and
    blank meta fields. *)
Lemma make_suggestions_bare (ucd : unicode_db) (text : pystr)
    (words sentences : list pystr) (headings : dict Z) (kw : Keywords)
    (kw_flags : Flags) (meta_title meta_desc : pystr) :
  len words = 50%Z ->
  get0 headings (lit "h1") = 0%Z ->
  get0 headings (lit "h2") = 0%Z ->
  target_keyword kw = [] ->
  strip meta_title = [] ->
  strip meta_desc = [] ->
  exists l,
    make_suggestions ucd text words sentences headings kw kw_flags
                     meta_title meta_desc = Ok l
    /\ subsequence
         [MSG_ADD_DEPTH; MSG_ADD_H1; MSG_ADD_H2; MSG_ADD_TARGET;
          MSG_ADD_META_TITLE; MSG_ADD_META_DESC] l.
Proof.
  intros Hlen Hh1 Hh2 Ht Hmt Hmd.
  unfold make_suggestions. rewrite Hlen, Hh1, Hh2, Ht, Hmt, Hmd.
  change (50 <? 300)%Z with true. change (0 =? 0)%Z with true.
  change (700 <=? 50)%Z with false. change (is_empty (@nil N)) with true.
  cbv beta iota zeta delta [append_if negb andb].
  destruct (get0 headings (lit "h3") =? 0)%Z;
  destruct (is_empty (filter (fun p : pystr => (110 <? count_split_words false p)%Z)
              (paragraphs text)));
  (destruct (0 <? len sentences)%Z eqn:Es;
   [ apply Z.ltb_lt in Es; rewrite truediv_nonzero by lia; cbv [bind];
     destruct (22 <? _)%float
   | cbv [bind] ]);
  (eexists; split; [reflexivity|]); cbn [app]; subseq_solve.
Qed.

(** [make_suggestions] divides only by a positive sentence count. *)
Lemma make_suggestions_total (ucd : unicode_db) (text : pystr)
    (words sentences : list pystr) (headings : dict Z) (kw : Keywords)
    (kw_flags : Flags) (meta_title meta_desc : pystr) :
  exists l,
    make_suggestions ucd text words sentences headings kw kw_flags
                     meta_title meta_desc = Ok l.
Proof.
  unfold make_suggestions.
  destruct (0 <? len sentences)%Z eqn:Es;
    [apply Z.ltb_lt in Es; rewrite truediv_nonzero by lia|];
    cbv [bind]; eexists; reflexivity.
Qed.

(** ** The orchestrator *)

(** [analyze] returns, and its result is assembled from the stages. *)
Lemma analyze_returns (ucd : unicode_db) (payload : Payload) :
  let raw_text := get_or_empty (payload_content payload) in
  let text := normalize_text raw_text in
  let words := tokenize_words text in
  let sentences := split_sentences text in
  exists res kw_flags,
    analyze ucd payload = Ok res
    /\ word_count (stats res) = len words
    /\ sentence_count (stats res) = len sentences
    /\ character_count (stats res) = len text
    /\ headings res = extract_headings ucd raw_text
    /\ keyword_metrics ucd words
         (get_or_empty (payload_target_keyword payload))
         (get_or_empty (payload_related_keywords payload))
       = Ok (keywords res, kw_flags)
    /\ make_suggestions ucd raw_text words sentences (headings res)
         (keywords res) kw_flags
         (get_or_empty (payload_meta_title payload))
         (get_or_empty (payload_meta_description payload))
       = Ok (suggestions res).
Proof.
  intros raw_text text words sentences. unfold analyze.
  fold raw_text. fold text. fold words. fold sentences.
  rewrite truediv_nonzero by lia. cbv beta iota delta [bind].
  destruct (flesch_reading_ease_total words sentences) as [score E1].
  rewrite E1.
  destruct (keyword_metrics_returns ucd words
              (get_or_empty (payload_target_keyword payload))
              (get_or_empty (payload_related_keywords payload)))
    as (kw & flags & E2 & _).
  rewrite E2.
  destruct (make_suggestions_total ucd raw_text words sentences
              (extract_headings ucd raw_text) kw flags
              (get_or_empty (payload_meta_title payload))
              (get_or_empty (payload_meta_description payload))) as [l E3].
  rewrite E3.
  eexists. exists flags. repeat split; assumption.
Qed.

(** C3: for every request whose fields are strings (or missing), whatever
    their content (empty, long, only punctuation), [analyze] returns a
    result and raises nothing. *)
Theorem analyze_never_raises (ucd : unicode_db) (payload : Payload) :
  exists res, analyze ucd payload = Ok res.
Proof.
  destruct (analyze_returns ucd payload) as (res & _ & E & _).
  now exists res.
Qed.

(** C8: for every document of 50 words with no heading, an empty target
    keyword and empty meta title and meta description, the suggestions hold
    the add-depth, add-H1, add-H2s, add-target-keyword, add-meta-title and
    add-meta-description messages, in that relative order. *)
Theorem suggestions_for_bare_document (ucd : unicode_db) (payload : Payload) :
  len (tokenize_words (normalize_text (get_or_empty (payload_content payload))))
    = 50%Z ->
  (forall level, In level levels ->
     get0 (extract_headings ucd (get_or_empty (payload_content payload)))
          (hkey level) = 0%Z) ->
  strip (get_or_empty (payload_target_keyword payload)) = [] ->
  strip (get_or_empty (payload_meta_title payload)) = [] ->
  strip (get_or_empty (payload_meta_description payload)) = [] ->
  exists res,
    analyze ucd payload = Ok res
    /\ subsequence
         [MSG_ADD_DEPTH; MSG_ADD_H1; MSG_ADD_H2; MSG_ADD_TARGET;
          MSG_ADD_META_TITLE; MSG_ADD_META_DESC]
         (suggestions res).
Proof.
  intros Hwords Hheadings Htarget Hmt Hmd.
  destruct (analyze_returns ucd payload)
    as (res & flags & E & _ & _ & _ & Hh & Hkw & Hs).
  exists res. split; [exact E|].
  destruct (keyword_metrics_returns ucd
              (tokenize_words (normalize_text (get_or_empty (payload_content payload))))
              (get_or_empty (payload_target_keyword payload))
              (get_or_empty (payload_related_keywords payload)))
    as (kw & flags' & E' & T & _).
  rewrite E' in Hkw. injection Hkw as Hkw _.
  assert (Tk : target_keyword (keywords res) = []).
  { rewrite <- Hkw, T, Htarget. reflexivity. }
  destruct (make_suggestions_bare ucd
              (get_or_empty (payload_content payload))
              (tokenize_words (normalize_text (get_or_empty (payload_content payload))))
              (split_sentences (normalize_text (get_or_empty (payload_content payload))))
              (headings res) (keywords res) flags
              (get_or_empty (payload_meta_title payload))
              (get_or_empty (payload_meta_description payload)))
    as (l & El & Sl); try assumption.
  - rewrite Hh. apply (Hheadings 1%Z). simpl. auto.
  - rewrite Hh. apply (Hheadings 2%Z). simpl. auto.
  - rewrite El in Hs. injection Hs as <-. exact Sl.
Qed.

(** Fifty times "word", no heading, nothing else filled in. *)
Lemma suggestions_for_bare_document_witness :
  exists res,
    analyze ascii_only_db (content_payload fifty_words []) = Ok res
    /\ subsequence
         [MSG_ADD_DEPTH; MSG_ADD_H1; MSG_ADD_H2; MSG_ADD_TARGET;
          MSG_ADD_META_TITLE; MSG_ADD_META_DESC]
         (suggestions res).
Proof.
  apply (suggestions_for_bare_document ascii_only_db
           (content_payload fifty_words [])).
  - vm_compute. reflexivity.
  - intros level [<-|[<-|[<-|[<-|[<-|[<-|[]]]]]]]; vm_compute; reflexivity.
  - reflexivity.
  - reflexivity.
  - reflexivity.
Defined.

(** C10: in every result of [analyze], a positive word count comes with a
    positive sentence count; so the sentence sequence is empty, and the
    readability score 0.0 for emptiness, only when there is no word token. *)
Theorem words_imply_sentences (ucd : unicode_db) (payload : Payload)
    (res : AnalysisResult) :
  analyze ucd payload = Ok res ->
  ((0 < word_count (stats res))%Z -> (0 < sentence_count (stats res))%Z)
  /\ (sentence_count (stats res) = 0%Z -> word_count (stats res) = 0%Z).
Proof.
  intros E.
  destruct (analyze_returns ucd payload) as (res' & _ & E' & W & S & _).
  rewrite E in E'. injection E' as <-.
  rewrite W, S.
  assert (K : (0 < len (tokenize_words (normalize_text
                          (get_or_empty (payload_content payload)))))%Z ->
              (0 < len (split_sentences (normalize_text
                          (get_or_empty (payload_content payload)))))%Z).
  { rewrite !len_pos_iff. apply sentence_of_word. }
  split; [exact K|].
  intros Z0. rewrite Z0 in K.
  pose proof (len_nonneg (tokenize_words (normalize_text
                (get_or_empty (payload_content payload))))). lia.
Qed.

(** The scenario request has ten words and two sentences. *)
Lemma words_imply_sentences_witness :
  exists res,
    analyze ascii_only_db scenario_payload = Ok res
    /\ (0 < sentence_count (stats res))%Z.
Proof.
  eexists. split; [vm_compute; reflexivity|].
  refine (proj1 (words_imply_sentences ascii_only_db scenario_payload _ _) _).
  - vm_compute. reflexivity.
  - vm_compute. reflexivity.
Defined.

(** C1: the end-to-end scenario.  For the content
    "# My Title\n\nThis is a test. It has two sentences.", target keyword
    "test", related keywords "sentence, example" and empty meta fields,
    [analyze] returns word_count 10, h1 = 1, target_count 1, related counts
    sentence: 0 and example: 0, and suggestions that hold the add-meta-title,
    the add-meta-description and the short-document (add-depth) messages. *)
Theorem scenario_end_to_end (ucd : unicode_db) :
  exists res,
    analyze ucd scenario_payload = Ok res
    /\ word_count (stats res) = 10%Z
    /\ dict_get (headings res) (lit "h1") = Some 1%Z
    /\ target_count (keywords res) = 1%Z
    /\ related_counts (keywords res) = [(lit "sentence", 0%Z); (lit "example", 0%Z)]
    /\ In MSG_ADD_META_TITLE (suggestions res)
    /\ In MSG_ADD_META_DESC (suggestions res)
    /\ In MSG_ADD_DEPTH (suggestions res).
Proof.
  eexists. split; [vm_compute; reflexivity|].
  repeat split; try (vm_compute; reflexivity); simpl; tauto.
Qed.

(** Related "cat" among the tokens category, cat, cat. *)
Lemma related_counts_exact_witness :
  exists kw flags,
    keyword_metrics ascii_only_db [lit "category"; lit "cat"; lit "cat"]
                    [] (lit "cat") = Ok (kw, flags)
    /\ dict_get (related_counts kw) (lit "cat") = Some 2%Z.
Proof.
  destruct (proj1 (related_counts_exact ascii_only_db
                     [lit "category"; lit "cat"; lit "cat"] [] (lit "cat")))
    as (kw & flags & E & R & P & _).
  exists kw, flags. split; [exact E|].
  rewrite (P (lit "cat")); [reflexivity|].
  rewrite R. vm_compute. auto.
Defined.

(** ** Worked examples of the scanners *)

Example normalize_text_example :
  normalize_text ([32%N; 8220%N] ++ lit "It" ++ [8217%N] ++ lit "s" ++ [8221%N; 10%N; 10%N; 9%N]
                  ++ lit "here " ++ [160%N])
  = [34%N] ++ lit "It's" ++ [34%N] ++ lit " here".
Proof. reflexivity. Qed.

Example tokenize_words_example :
  tokenize_words (lit "Don't STOP, 42 times!") =
  [lit "don't"; lit "stop"; lit "42"; lit "times"].
Proof. reflexivity. Qed.

Example split_sentences_empty : split_sentences [] = [].
Proof. reflexivity. Qed.

Example split_sentences_no_terminator :
  split_sentences (lit "Hello world") = [lit "Hello world"].
Proof. reflexivity. Qed.

(** A terminator inside a word separates nothing; a run of terminators
    before whitespace or at the end does. *)
Example split_sentences_example :
  split_sentences (lit "Go to example.com now?! Yes...") =
  [lit "Go to example.com now"; lit "Yes"].
Proof. reflexivity. Qed.

Example splitlines_example :
  splitlines (lit "a" ++ [13%N; 10%N] ++ lit "b" ++ [10%N; 10%N] ++ lit "c" ++ [10%N])
  = [lit "a"; lit "b"; []; lit "c"].
Proof. reflexivity. Qed.

(** A line feed alone separates no paragraph; a blank line, with or without
    whitespace on it, does. *)
Example split_blank_lines_example :
  split_blank_lines [] None
    (lit "a" ++ [10%N] ++ lit "b" ++ [10%N; 32%N; 10%N; 10%N; 32%N] ++ lit "c")
  = [lit "a" ++ [10%N] ++ lit "b"; lit " c"].
Proof. reflexivity. Qed.

Example md_heading_level_examples :
  md_heading_level (lit "  ## Sub") = Some 2%Z
  /\ md_heading_level (lit "####### seven") = None
  /\ md_heading_level (lit "#tag") = None
  /\ md_heading_level (lit "# ") = None.
Proof. repeat split. Qed.

(** A tag name goes on past the digit in [<h1x>] and [<h12>], but not in
    [<H1 class=...>]. *)
Example count_open_tags_example (ucd : unicode_db) :
  count_open_tags ucd 1 (lit "<h1>a</h1><H1 id=x><h1x><h12>") = 2%Z.
Proof. reflexivity. Qed.

(** The target is matched as a phrase between word boundaries. *)
Example count_phrase_examples (ucd : unicode_db) :
  count_phrase ucd (lit "cat") 0 None (lit "category cat cat") = 2%Z
  /\ count_phrase ucd (lit "content strategy") 0 None
       (lit "my content strategy beats your content strategy") = 2%Z
  /\ count_phrase ucd (lit "a a") 0 None (lit "a a a") = 1%Z.
Proof. repeat split. Qed.

Example keyword_density_example (ucd : unicode_db) :
  exists kw flags,
    keyword_metrics ucd [lit "seo"; lit "seo"; lit "seo"] (lit " SEO ") [] = Ok (kw, flags)
    /\ target_keyword kw = lit "seo"
    /\ target_count kw = 3%Z
    /\ target_density_percent kw = 100%float
    /\ density_high flags = true.
Proof. do 2 eexists. split; [vm_compute; reflexivity|]. repeat split. Qed.

(** Equal counts keep the order of first occurrence. *)
Example most_common_example :
  most_common (Counter_of [lit "b"; lit "a"; lit "c"; lit "a"; lit "c"; lit "b"; lit "d"; lit "c"]) 3
  = [(lit "c", 3%Z); (lit "b", 2%Z); (lit "a", 2%Z)].
Proof. reflexivity. Qed.

Example py_round_examples :
  py_round 2.675 2 = 2.67%float
  /\ py_round 0.125 2 = 0.12%float
  /\ py_round 102.95000000000002 1 = 103%float
  /\ py_round 5 2 = 5%float.
Proof. repeat split. Qed.

(** A meta title of 65 characters draws no long-title message; one of 66
    does. *)
Example meta_title_length_boundary (ucd : unicode_db) :
  let kw := {| target_keyword := []; target_count := 0; target_density_percent := 0;
               related_keywords := []; related_counts := []; top_terms := [] |} in
  let flags := {| has_target := false; density_low := false; density_high := false |} in
  (exists l, make_suggestions ucd [] [] [] [] kw flags (repeat 120%N 65) [] = Ok l
             /\ ~ In MSG_META_TITLE_LONG l)
  /\ (exists l, make_suggestions ucd [] [] [] [] kw flags (repeat 120%N 66) [] = Ok l
                /\ In MSG_META_TITLE_LONG l).
Proof.
  split; eexists; (split; [vm_compute; reflexivity|]).
  - intros H. simpl in H. repeat (destruct H as [H|H]; [discriminate H|]). exact H.
  - simpl. tauto.
Qed.

(** * Further properties of the engine *)

(** ** Shape of a normalised text *)

Lemma lstrip_head (s : pystr) (c : N) (rest : pystr) :
  lstrip s = c :: rest -> isspace c = false.
Proof.
  induction s as [|a t IH]; simpl; [discriminate|].
  destruct (isspace a) eqn:E; [exact IH|]. intros H. injection H as <- _. exact E.
Qed.

Lemma strip_head (s : pystr) (c : N) (rest : pystr) :
  strip s = c :: rest -> isspace c = false.
Proof.
  intros H. apply (lstrip_head (strip s) c rest).
  unfold strip at 1. rewrite lstrip_rstrip_fixed by apply lstrip_idem. exact H.
Qed.

Lemma strip_last (s : pystr) (c : N) (init : pystr) :
  strip s = init ++ [c] -> isspace c = false.
Proof.
  intros H. apply (lstrip_head (rev (strip s)) c (rev init)).
  assert (R : rstrip (strip s) = strip s) by apply rstrip_idem.
  unfold rstrip in R. apply (f_equal (@rev N)) in R.
  rewrite rev_involutive in R. rewrite R, H, rev_app_distr. reflexivity.
Qed.

Lemma single_spaced_In (b : bool) (s : pystr) (c : N) :
  single_spaced b s -> In c s -> isspace c = true -> c = 32%N.
Proof.
  revert b. induction s as [|a t IH]; intros b; simpl; [tauto|].
  destruct (isspace a) eqn:E.
  - intros (-> & _ & H) [<-|I] Hc; [reflexivity | now apply (IH true)].
  - intros H [<-|I] Hc; [congruence | now apply (IH false)].
Qed.

Lemma single_spaced_adjacent (b : bool) (pre post : pystr) (x y : N) :
  single_spaced b (pre ++ x :: y :: post) -> isspace x = true -> isspace y = false.
Proof.
  revert b. induction pre as [|a t IH]; intros b; simpl.
  - intros H Hx. rewrite Hx in H. destruct H as (_ & _ & H).
    destruct (isspace y); [|reflexivity]. destruct H as (_ & F & _). discriminate.
  - destruct (isspace a); [intros (_ & _ & H) | intros H]; eapply IH; exact H.
Qed.

(** X1: a normalised text holds none of the three typographic quotation
    marks, its only whitespace character is U+0020, no two whitespace
    characters are adjacent, and it neither starts nor ends with
    whitespace. *)
Theorem normalize_text_shape (s : pystr) :
  (forall c, In c (normalize_text s) ->
     c <> 8217%N /\ c <> 8220%N /\ c <> 8221%N)
  /\ (forall c, In c (normalize_text s) -> isspace c = true -> c = 32%N)
  /\ (forall pre x y post, normalize_text s = pre ++ x :: y :: post ->
        isspace x = true -> isspace y = false)
  /\ (forall c rest, normalize_text s = c :: rest -> isspace c = false)
  /\ (forall init c, normalize_text s = init ++ [c] -> isspace c = false).
Proof.
  pose proof (normalize_text_single_spaced s) as S.
  repeat split.
  1-3: pose proof (normalize_text_no_smart_quote s) as Q;
       rewrite Forall_forall in Q; specialize (Q c H);
       unfold is_smart_quote in Q; intros ->; discriminate Q.
  - intros c. apply (single_spaced_In false _ c S).
  - intros pre x y post E. rewrite E in S.
    apply (single_spaced_adjacent false pre post x y S).
  - intros c rest. apply strip_head.
  - intros init c. apply strip_last.
Qed.

Lemma lstrip_length (s : pystr) : (length (lstrip s) <= length s)%nat.
Proof.
  induction s as [|a t IH]; simpl; [lia|]. destruct (isspace a); simpl; lia.
Qed.

Lemma strip_length (s : pystr) : (length (strip s) <= length s)%nat.
Proof.
  unfold strip, rstrip. rewrite length_rev.
  pose proof (lstrip_length (rev (lstrip s))) as H. rewrite length_rev in H.
  pose proof (lstrip_length s). lia.
Qed.

Lemma sub_ws_runs_length (b : bool) (s : pystr) :
  (length (sub_ws_runs b s) <= length s)%nat.
Proof.
  revert b. induction s as [|a t IH]; intros b; simpl; [lia|].
  pose proof (IH true). pose proof (IH false).
  destruct (isspace a); [destruct b|]; simpl; lia.
Qed.

(** X2: normalisation never lengthens a text: the character count
    [analyze] reports is at most the length of the raw content. *)
Theorem normalize_text_length (s : pystr) :
  (len (normalize_text s) <= len s)%Z.
Proof.
  unfold len, normalize_text.
  pose proof (strip_length (sub_ws_runs false
    (replace_char 8221 34 (replace_char 8220 34 (replace_char 8217 39 s))))) as H1.
  pose proof (sub_ws_runs_length false
    (replace_char 8221 34 (replace_char 8220 34 (replace_char 8217 39 s)))) as H2.
  unfold replace_char in *. rewrite !length_map in H2. lia.
Qed.

(** ** Tokens *)

(** A character of a token: a lower-case letter, a digit or an apostrophe. *)
Definition is_token_char (c : N) : bool :=
  is_lower c || is_ascii_digit c || (c =? 39)%N.

Lemma ascii_lower_char_token (c : N) :
  is_WORD_RE_char c = true -> is_token_char (ascii_lower_char c) = true.
Proof.
  unfold is_WORD_RE_char, is_token_char, ascii_lower_char, is_upper, is_lower,
    is_ascii_digit, in_range. intros H.
  assert (B : (c = 39 \/ 48 <= c <= 57 \/ 65 <= c <= 90 \/ 97 <= c <= 122)%N).
  { repeat rewrite ?orb_true_iff, ?andb_true_iff, ?N.leb_le, ?N.eqb_eq in H. lia. }
  destruct ((65 <=? c)%N && (c <=? 90)%N) eqn:U.
  - apply andb_true_iff in U. rewrite !N.leb_le in U.
    repeat rewrite ?orb_true_iff, ?andb_true_iff, ?N.leb_le, ?N.eqb_eq. lia.
  - apply andb_false_iff in U. rewrite !N.leb_gt in U.
    repeat rewrite ?orb_true_iff, ?andb_true_iff, ?N.leb_le, ?N.eqb_eq. lia.
Qed.

Lemma WORD_RE_findall_runs (cur text : pystr) :
  Forall (fun c => is_WORD_RE_char c = true) cur ->
  Forall (fun w => w <> [] /\ Forall (fun c => is_WORD_RE_char c = true) w)
         (WORD_RE_findall cur text).
Proof.
  assert (F : forall cur, Forall (fun c => is_WORD_RE_char c = true) cur ->
            Forall (fun w => w <> [] /\ Forall (fun c => is_WORD_RE_char c = true) w)
                   (flush cur)).
  { intros [|a l] H; simpl; constructor; [|constructor]. split.
    - intros E. apply (f_equal (@length N)) in E.
      rewrite length_app in E. simpl in E. lia.
    - apply Forall_app. split; [apply Forall_rev; now inversion H|].
      constructor; [now inversion H | constructor]. }
  revert cur. induction text as [|c t IH]; intros cur H; simpl; [now apply F|].
  destruct (is_WORD_RE_char c) eqn:E.
  - apply IH. now constructor.
  - apply Forall_app. split; [now apply F | apply IH; constructor].
Qed.

(** X3: every token is non-empty and made of lower-case letters, digits and
    apostrophes only. *)
Theorem tokenize_words_tokens (text : pystr) :
  Forall (fun w => w <> [] /\ Forall (fun c => is_token_char c = true) w)
         (tokenize_words text).
Proof.
  unfold tokenize_words. apply Forall_map.
  eapply Forall_impl; [|apply (WORD_RE_findall_runs [] text); constructor].
  intros w (Hne & Hw). split.
  - destruct w; [congruence | discriminate].
  - apply Forall_map. eapply Forall_impl; [|exact Hw].
    intros c. apply ascii_lower_char_token.
Qed.

Lemma WORD_RE_findall_split (cur a b : pystr) (c : N) :
  is_WORD_RE_char c = false ->
  WORD_RE_findall cur (a ++ c :: b) = WORD_RE_findall cur a ++ WORD_RE_findall [] b.
Proof.
  intros Hc. revert cur. induction a as [|x a IH]; intros cur; simpl.
  - now rewrite Hc.
  - destruct (is_WORD_RE_char x); [apply IH|]. now rewrite IH, app_assoc.
Qed.

(** X4: tokenisation is local: around a character that is no letter, digit
    or apostrophe, the tokens of a text are the tokens of what stands before
    it followed by the tokens of what stands after it, and the word counts
    add up. *)
Theorem tokenize_words_split (a b : pystr) (c : N) :
  is_WORD_RE_char c = false ->
  tokenize_words (a ++ c :: b) = tokenize_words a ++ tokenize_words b
  /\ len (tokenize_words (a ++ c :: b))
     = (len (tokenize_words a) + len (tokenize_words b))%Z.
Proof.
  intros Hc.
  assert (E : tokenize_words (a ++ c :: b) = tokenize_words a ++ tokenize_words b).
  { unfold tokenize_words. now rewrite WORD_RE_findall_split, map_app. }
  split; [exact E|]. rewrite E. unfold len. rewrite length_app. lia.
Qed.

Lemma tokenize_words_split_witness :
  tokenize_words (lit "one two") = [lit "one"] ++ [lit "two"].
Proof.
  exact (proj1 (tokenize_words_split (lit "one") (lit "two") 32%N eq_refl)).
Defined.

(** ** Sentences *)

(** X5: every sentence is non-empty and carries no whitespace at either
    end. *)
Theorem split_sentences_trimmed (text : pystr) :
  Forall (fun p => p <> [] /\ strip p = p) (split_sentences text).
Proof.
  unfold split_sentences. apply Forall_map, Forall_forall.
  intros q Hq. apply filter_In in Hq. destruct Hq as (_ & Hq).
  unfold nonblank in Hq. split; [|apply strip_idem].
  destruct (strip q); [discriminate | congruence].
Qed.

Lemma split_terminators_none (cur text : pystr) :
  Forall (fun c => is_terminator c = false) text ->
  split_terminators cur [] text = [rev cur ++ text].
Proof.
  intros H. revert cur. induction H as [|c t Hc Ht IH]; intros cur; simpl.
  - now rewrite app_nil_r.
  - rewrite Hc, IH. simpl. now rewrite <- app_assoc.
Qed.

(** X6: a text with no [.], [!] or [?] and a character that is no
    whitespace is exactly one sentence, the trimmed text. *)
Theorem split_sentences_no_terminator_one (text : pystr) :
  Forall (fun c => is_terminator c = false) text ->
  nonblank text = true ->
  split_sentences text = [strip text].
Proof.
  intros H B. unfold split_sentences.
  rewrite split_terminators_none by (now apply Forall_strip).
  change (rev [] ++ strip text) with (strip text). cbn [filter].
  assert (N : nonblank (strip text) = true).
  { unfold nonblank in *. now rewrite strip_idem. }
  rewrite N. cbn [map]. now rewrite strip_idem.
Qed.

Lemma split_sentences_no_terminator_one_witness :
  split_sentences (lit "  Hello world ") = [lit "Hello world"].
Proof.
  apply (split_sentences_no_terminator_one (lit "  Hello world ")).
  - repeat constructor.
  - reflexivity.
Defined.

(** ** Syllable bounds *)

Lemma vowel_groups_bounds (w : pystr) (acc : Z) (prev : bool) :
  (acc <= vowel_groups acc prev w <= acc + len (filter is_vowel w))%Z.
Proof.
  revert acc prev. induction w as [|c t IH]; intros acc prev; simpl.
  - unfold len. simpl. lia.
  - destruct (is_vowel c) eqn:E; simpl.
    + unfold len in *. simpl length.
      destruct prev; simpl;
        [specialize (IH acc true) | specialize (IH (acc + 1)%Z true)]; lia.
    + specialize (IH acc false). lia.
Qed.

Lemma lower_az_letters (c x : N) : In x (lower_az c) -> is_lower x = true.
Proof.
  unfold lower_az, is_upper, is_lower, in_range.
  destruct ((65 <=? c)%N && (c <=? 90)%N) eqn:U.
  - intros [<-|[]]. apply andb_true_iff in U. rewrite !N.leb_le in U.
    rewrite andb_true_iff, !N.leb_le. lia.
  - destruct ((97 <=? c)%N && (c <=? 122)%N) eqn:L.
    + intros [<-|[]]. exact L.
    + destruct (c =? 304)%N; [intros [<-|[]]; reflexivity|].
      destruct (c =? 8490)%N; [intros [<-|[]]; reflexivity|]. intros [].
Qed.

Lemma letters_only_fixed (w : pystr) :
  Forall (fun x => is_lower x = true) w -> letters_only w = w.
Proof.
  unfold letters_only. induction 1 as [|x t Hx _ IH]; simpl; [reflexivity|].
  rewrite IH. unfold lower_az.
  assert (U : is_upper x = false).
  { unfold is_upper, is_lower, in_range in *.
    apply andb_true_iff in Hx. rewrite !N.leb_le in Hx.
    apply andb_false_iff. rewrite !N.leb_gt. lia. }
  now rewrite U, Hx.
Qed.

Lemma letters_only_idem (word : pystr) :
  letters_only (letters_only word) = letters_only word.
Proof.
  apply letters_only_fixed, Forall_forall. intros x Hx.
  unfold letters_only in Hx. apply in_flat_map in Hx.
  destruct Hx as (c & _ & Hc). now apply (lower_az_letters c).
Qed.

(** X7: the syllable count is never negative and never more than the number
    of vowel letters of the word (or 1, for a word with letters and no
    vowel), and it depends on the letters of the word only: case, digits and
    punctuation do not change it. *)
Theorem count_syllables_bounds (word : pystr) :
  (0 <= count_syllables word
     <= Z.max 1 (len (filter is_vowel (letters_only word))))%Z
  /\ count_syllables word = count_syllables (letters_only word).
Proof.
  split.
  - unfold count_syllables.
    destruct (letters_only word) as [|c t] eqn:E; [lia|].
    pose proof (vowel_groups_bounds (c :: t) 0 false) as B.
    destruct (endswith (c :: t) (lit "e") && (1 <? vowel_groups 0 false (c :: t))%Z
              && negb (endswith (c :: t) (lit "le") || endswith (c :: t) (lit "ye")));
      lia.
  - unfold count_syllables. now rewrite letters_only_idem.
Qed.

(** ** Top terms *)

From Stdlib Require Import Permutation Sorted.

(** [b] does not beat [a]: the order of [most_common]. *)
Definition count_ge (a b : pystr * Z) : Prop := (snd b <= snd a)%Z.

Lemma insert_by_count_perm (x : pystr * Z) (l : list (pystr * Z)) :
  Permutation (insert_by_count x l) (x :: l).
Proof.
  induction l as [|y l IH]; simpl; [reflexivity|].
  destruct (snd x <? snd y)%Z; [|reflexivity].
  rewrite IH. apply perm_swap.
Qed.

Lemma sort_by_count_perm (l : list (pystr * Z)) :
  Permutation (sort_by_count l) l.
Proof.
  induction l as [|x l IH]; simpl; [reflexivity|].
  unfold sort_by_count in *. simpl. rewrite insert_by_count_perm. now constructor.
Qed.

Lemma insert_by_count_sorted (x : pystr * Z) (l : list (pystr * Z)) :
  StronglySorted count_ge l -> StronglySorted count_ge (insert_by_count x l).
Proof.
  induction 1 as [|y l Hs IH Hy]; simpl.
  - constructor; constructor.
  - destruct (snd x <? snd y)%Z eqn:E.
    + apply Z.ltb_lt in E. constructor; [exact IH|].
      apply Forall_forall. intros z Hz.
      apply (Permutation_in _ (insert_by_count_perm x l)) in Hz.
      destruct Hz as [<-|Hz]; [unfold count_ge; lia|].
      rewrite Forall_forall in Hy. now apply Hy.
    + apply Z.ltb_ge in E. constructor; [now constructor|].
      constructor; [exact E|].
      eapply Forall_impl; [|exact Hy]. unfold count_ge. intros z Hz. lia.
Qed.

Lemma sort_by_count_sorted (l : list (pystr * Z)) :
  StronglySorted count_ge (sort_by_count l).
Proof.
  induction l as [|x l IH]; [constructor|].
  apply insert_by_count_sorted, IH.
Qed.

Lemma In_firstn {A : Type} (x : A) (n : nat) (l : list A) :
  In x (firstn n l) -> In x l.
Proof.
  revert n. induction l as [|a l IH]; intros [|n]; simpl; try tauto.
  intros [H|H]; [now left | right; now apply (IH n)].
Qed.

Lemma Forall_firstn {A : Type} (P : A -> Prop) (n : nat) (l : list A) :
  Forall P l -> Forall P (firstn n l).
Proof.
  intros H. apply Forall_forall. intros x Hx.
  rewrite Forall_forall in H. apply H. eapply In_firstn, Hx.
Qed.

Lemma Forall_filter_keep {A : Type} (P : A -> Prop) (f : A -> bool) (l : list A) :
  Forall P l -> Forall P (filter f l).
Proof.
  intros H. apply Forall_forall. intros x Hx. apply filter_In in Hx.
  rewrite Forall_forall in H. now apply H.
Qed.

Lemma StronglySorted_firstn {A : Type} (R : A -> A -> Prop) (n : nat) (l : list A) :
  StronglySorted R l -> StronglySorted R (firstn n l).
Proof.
  intros H. revert n. induction H as [|x l Hs IH Hx]; intros [|n]; simpl;
    try constructor; [apply IH | now apply Forall_firstn].
Qed.

Lemma StronglySorted_filter {A : Type} (R : A -> A -> Prop) (f : A -> bool) (l : list A) :
  StronglySorted R l -> StronglySorted R (filter f l).
Proof.
  induction 1 as [|x l Hs IH Hx]; simpl; [constructor|].
  destruct (f x); [|exact IH]. constructor; [exact IH | now apply Forall_filter_keep].
Qed.

Lemma NoDup_keys_firstn {V : Type} (n : nat) (l : list (pystr * V)) :
  NoDup (map fst l) -> NoDup (map fst (firstn n l)).
Proof.
  revert n. induction l as [|x l IH]; intros [|n]; simpl; try constructor.
  - inversion H as [|? ? Hn Hd]; subst. intros I. apply Hn.
    apply in_map_iff in I. destruct I as (y & <- & Hy).
    apply in_map. eapply In_firstn, Hy.
  - inversion H; subst. now apply IH.
Qed.

Lemma NoDup_keys_filter {V : Type} (f : pystr * V -> bool) (l : list (pystr * V)) :
  NoDup (map fst l) -> NoDup (map fst (filter f l)).
Proof.
  induction l as [|x l IH]; simpl; [trivial|].
  intros H. inversion H as [|? ? Hn Hd]; subst.
  destruct (f x); simpl; [|now apply IH].
  constructor; [|now apply IH]. intros I. apply Hn.
  apply in_map_iff in I. destruct I as (y & <- & Hy).
  apply filter_In in Hy. apply in_map. tauto.
Qed.

Lemma occurrences_pos (w : pystr) (words : list pystr) :
  In w words -> (1 <= occurrences w words)%Z.
Proof.
  intros H. unfold occurrences, len.
  assert (I : In w (filter (pystr_eqb w) words)).
  { apply filter_In. split; [exact H | apply pystr_eqb_refl]. }
  destruct (filter (pystr_eqb w) words); [destruct I | simpl length; lia].
Qed.

(** X8: the reported top terms are at most 15; every one of them is a token
    of the input, longer than two characters and not purely numeric, paired
    with the exact number of its occurrences. *)
Theorem top_terms_entries (ucd : unicode_db) (words : list pystr)
    (target related : pystr) (kw : Keywords) (flags : Flags) :
  keyword_metrics ucd words target related = Ok (kw, flags) ->
  (length (top_terms kw) <= 15)%nat
  /\ (forall w c, In (w, c) (top_terms kw) ->
        In w words /\ c = occurrences w words /\ (1 <= c)%Z
        /\ (2 < len w)%Z /\ isdigit ucd w = false).
Proof.
  intros E.
  destruct (keyword_metrics_returns ucd words target related)
    as (kw' & flags' & E' & _ & _ & _ & T).
  rewrite E in E'. injection E' as <- <-. rewrite T. split.
  - apply firstn_le_length.
  - intros w c H. apply In_firstn, filter_In in H.
    destruct H as (H & R). unfold most_common in H.
    apply In_firstn in H.
    apply (Permutation_in _ (sort_by_count_perm _)) in H.
    rewrite Counter_of_frequency_table in H. unfold frequency_table in H.
    apply in_map_iff in H. destruct H as (x & X & Hx).
    injection X as -> <-. apply (proj1 (In_first_occurrences _ _)) in Hx.
    unfold reportable in R. simpl in R. apply andb_true_iff in R.
    destruct R as (L & D). apply Z.ltb_lt in L. apply negb_true_iff in D.
    repeat split; try assumption. now apply occurrences_pos.
Qed.

Lemma top_terms_entries_witness :
  exists kw flags,
    keyword_metrics ascii_only_db [lit "seo"; lit "tips"; lit "seo"] [] []
      = Ok (kw, flags)
    /\ (length (top_terms kw) <= 15)%nat.
Proof.
  do 2 eexists. split; [vm_compute; reflexivity|].
  refine (proj1 (top_terms_entries ascii_only_db
                   [lit "seo"; lit "tips"; lit "seo"] [] [] _ _ _)).
  vm_compute. reflexivity.
Defined.

(** X9: the reported top terms stand in order of non-increasing count, and
    no term is reported twice. *)
Theorem top_terms_ranked (ucd : unicode_db) (words : list pystr)
    (target related : pystr) (kw : Keywords) (flags : Flags) :
  keyword_metrics ucd words target related = Ok (kw, flags) ->
  StronglySorted count_ge (top_terms kw) /\ NoDup (map fst (top_terms kw)).
Proof.
  intros E.
  destruct (keyword_metrics_returns ucd words target related)
    as (kw' & flags' & E' & _ & _ & _ & T).
  rewrite E in E'. injection E' as <- <-. rewrite T. unfold most_common. split.
  - apply StronglySorted_firstn, StronglySorted_filter, StronglySorted_firstn,
      sort_by_count_sorted.
  - apply NoDup_keys_firstn, NoDup_keys_filter, NoDup_keys_firstn.
    apply (Permutation_NoDup (l := map fst (Counter_of words))).
    + apply Permutation_map. symmetry. apply sort_by_count_perm.
    + rewrite Counter_of_frequency_table. unfold frequency_table.
      rewrite map_map. simpl. rewrite map_id. apply NoDup_first_occurrences.
Qed.

Lemma top_terms_ranked_witness :
  exists kw flags,
    keyword_metrics ascii_only_db [lit "seo"; lit "tips"; lit "seo"] [] []
      = Ok (kw, flags)
    /\ NoDup (map fst (top_terms kw)).
Proof.
  do 2 eexists. split; [vm_compute; reflexivity|].
  refine (proj2 (top_terms_ranked ascii_only_db
                   [lit "seo"; lit "tips"; lit "seo"] [] [] _ _ _)).
  vm_compute. reflexivity.
Defined.

(** ** Keyword flags and edge cases *)

(** No binary64 number is below 0.5 and above 3.0. *)
Lemma float_not_below_and_above (d : float) :
  (d <? 0.5)%float && (3.0 <? d)%float = false.
Proof.
  rewrite !FloatAxioms.ltb_spec. unfold SFltb.
  replace (Prim2SF 0.5) with (S754_finite false 4503599627370496 (-53))
    by (vm_compute; reflexivity).
  replace (Prim2SF 3.0) with (S754_finite false 6755399441055744 (-51))
    by (vm_compute; reflexivity).
  destruct (Prim2SF d) as [s|s| |s m e]; cbv [SFcompare].
  - destruct s; reflexivity.
  - destruct s; reflexivity.
  - reflexivity.
  - destruct s; [apply andb_false_r|].
    destruct (Z.compare_spec e (-53)) as [E|E|E];
      destruct (Z.compare_spec (-51) e) as [F|F|F];
      try (exfalso; lia); try reflexivity; try apply andb_false_r;
      try apply andb_false_l.
    all: destruct (PosDef.Pos.compare_cont Eq m 4503599627370496); reflexivity.
Qed.

Lemma keyword_flags_disjoint (ucd : unicode_db) (words : list pystr)
    (target related : pystr) (kw : Keywords) (flags : Flags) :
  keyword_metrics ucd words target related = Ok (kw, flags) ->
  density_low flags && density_high flags = false.
Proof.
  unfold keyword_metrics.
  destruct (0 <? len words)%Z eqn:E.
  - apply Z.ltb_lt in E. rewrite truediv_nonzero by lia. cbv [bind].
    intros H. injection H as _ <-. cbn [density_low density_high].
    destruct (negb (is_empty (lower ucd (strip target)))); [|reflexivity].
    rewrite !andb_true_l. apply float_not_below_and_above.
  - cbv [bind]. intros H. injection H as _ <-. cbn [density_low density_high].
    destruct (negb (is_empty (lower ucd (strip target)))); reflexivity.
Qed.

(** X10: the flags [density_low] and [density_high] are never raised
    together: no density is below 0.5 and above 3.0. *)
Theorem density_flags_exclusive (ucd : unicode_db) (words : list pystr)
    (target related : pystr) (kw : Keywords) (flags : Flags) :
  keyword_metrics ucd words target related = Ok (kw, flags) ->
  density_low flags && density_high flags = false.
Proof. apply keyword_flags_disjoint. Qed.

Lemma density_flags_exclusive_witness :
  exists kw flags,
    keyword_metrics ascii_only_db [lit "seo"; lit "tips"; lit "seo"] (lit "seo") []
      = Ok (kw, flags)
    /\ density_low flags && density_high flags = false.
Proof.
  do 2 eexists. split; [vm_compute; reflexivity|].
  refine (density_flags_exclusive ascii_only_db
            [lit "seo"; lit "tips"; lit "seo"] (lit "seo") [] _ _ _).
  vm_compute. reflexivity.
Defined.

(** X11: with a target keyword that is empty or blank, nothing is searched:
    the normalised target is empty, its count is 0 and none of the three
    flags is raised. *)
Theorem keyword_metrics_blank_target (ucd : unicode_db) (words : list pystr)
    (target related : pystr) (kw : Keywords) (flags : Flags) :
  strip target = [] ->
  keyword_metrics ucd words target related = Ok (kw, flags) ->
  target_keyword kw = [] /\ target_count kw = 0%Z
  /\ has_target flags = false /\ density_low flags = false
  /\ density_high flags = false.
Proof.
  intros B. unfold keyword_metrics. rewrite B.
  change (lower ucd []) with (@nil N). change (is_empty (@nil N)) with true.
  cbv iota.
  destruct (0 <? len words)%Z eqn:E;
    [apply Z.ltb_lt in E; rewrite truediv_nonzero by lia|];
    cbv [bind]; intros H; injection H as <- <-; repeat split.
Qed.

Lemma keyword_metrics_blank_target_witness :
  exists kw flags,
    keyword_metrics ascii_only_db [lit "seo"; lit "tips"] (lit "  ") []
      = Ok (kw, flags)
    /\ target_count kw = 0%Z.
Proof.
  do 2 eexists. split; [vm_compute; reflexivity|].
  refine (proj1 (proj2 (keyword_metrics_blank_target ascii_only_db
            [lit "seo"; lit "tips"] (lit "  ") [] _ _ _ _))).
  - reflexivity.
  - vm_compute. reflexivity.
Defined.

(** X12: on an empty token sequence [keyword_metrics] divides by nothing and
    returns: the target count is 0, the density 0.0, every related term
    counts 0, there is no top term, and neither [has_target] nor
    [density_high] is raised. *)
Theorem keyword_metrics_no_words (ucd : unicode_db) (target related : pystr) :
  exists kw flags,
    keyword_metrics ucd [] target related = Ok (kw, flags)
    /\ target_count kw = 0%Z
    /\ target_density_percent kw = 0%float
    /\ (forall r, In r (related_keywords kw) ->
          dict_get (related_counts kw) r = Some 0%Z)
    /\ top_terms kw = []
    /\ has_target flags = false
    /\ density_high flags = false.
Proof.
  do 2 eexists. split; [reflexivity|]. cbn [target_count target_density_percent
    related_keywords related_counts top_terms has_target density_high].
  assert (C : (if is_empty (lower ucd (strip target)) then 0%Z
               else count_phrase ucd (lower ucd (strip target)) 0 None
                      (join (lit " ") [])) = 0%Z).
  { destruct (is_empty (lower ucd (strip target))); reflexivity. }
  rewrite C. repeat split.
  - intros r H.
    now apply (dict_of_comprehension (fun r => counter_get (Counter_of []) r)).
  - apply andb_false_r.
  - apply andb_false_r.
Qed.

(** ** The suggestion rules as a table *)

(** The messages of the rules whose condition holds, in the order of the
    rules. *)
Fixpoint select (rules : list (bool * pystr)) : list pystr :=
  match rules with
  | [] => []
  | (c, m) :: rest => if c then m :: select rest else select rest
  end.

(** The twenty rules of [make_suggestions], each with the condition under
    which the code appends its message. *)
Definition rule_table (ucd : unicode_db) (text : pystr)
    (words sentences : list pystr) (headings : dict Z) (kw : Keywords)
    (kw_flags : Flags) (meta_title meta_desc : pystr) : list (bool * pystr) :=
  let word_count := len words in
  let sentence_count := len sentences in
  let h1 := get0 headings (lit "h1") in
  let target := target_keyword kw in
  let has := negb (is_empty target) in
  let mt := strip meta_title in
  let md := strip meta_desc in
  [ ((word_count <? 300)%Z, MSG_ADD_DEPTH);
    (negb (word_count <? 300)%Z && (2000 <? word_count)%Z, MSG_TRIM);
    ((0 <? sentence_count)%Z
     && (22 <? float_of_int word_count / float_of_int sentence_count)%float,
     MSG_SHORTEN_SENTENCES);
    ((h1 =? 0)%Z, MSG_ADD_H1);
    (negb (h1 =? 0)%Z && (1 <? h1)%Z, MSG_ONE_H1);
    ((get0 headings (lit "h2") =? 0)%Z, MSG_ADD_H2);
    ((get0 headings (lit "h3") =? 0)%Z && (700 <=? word_count)%Z, MSG_ADD_H3);
    (has && negb (has_target kw_flags), MSG_INCLUDE_TARGET);
    (has && density_low kw_flags, MSG_DENSITY_LOW);
    (has && density_high kw_flags, MSG_DENSITY_HIGH);
    (negb has, MSG_ADD_TARGET);
    (is_empty mt, MSG_ADD_META_TITLE);
    (negb (is_empty mt) && (len mt <? 35)%Z, MSG_META_TITLE_SHORT);
    (negb (is_empty mt) && (65 <? len mt)%Z, MSG_META_TITLE_LONG);
    (negb (is_empty mt) && (has && negb (contains (lower ucd mt) target)),
     MSG_META_TITLE_KEYWORD);
    (is_empty md, MSG_ADD_META_DESC);
    (negb (is_empty md) && (len md <? 90)%Z, MSG_META_DESC_SHORT);
    (negb (is_empty md) && (170 <? len md)%Z, MSG_META_DESC_LONG);
    (negb (is_empty md) && (has && negb (contains (lower ucd md) target)),
     MSG_META_DESC_KEYWORD);
    (negb (is_empty (filter (fun p => (110 <? count_split_words false p)%Z)
                            (paragraphs text))),
     MSG_LONG_PARAGRAPHS) ].

(** Every message of the engine, in rule order. *)
Definition ALL_MESSAGES : list pystr :=
  [ MSG_ADD_DEPTH; MSG_TRIM; MSG_SHORTEN_SENTENCES; MSG_ADD_H1; MSG_ONE_H1;
    MSG_ADD_H2; MSG_ADD_H3; MSG_INCLUDE_TARGET; MSG_DENSITY_LOW;
    MSG_DENSITY_HIGH; MSG_ADD_TARGET; MSG_ADD_META_TITLE; MSG_META_TITLE_SHORT;
    MSG_META_TITLE_LONG; MSG_META_TITLE_KEYWORD; MSG_ADD_META_DESC;
    MSG_META_DESC_SHORT; MSG_META_DESC_LONG; MSG_META_DESC_KEYWORD;
    MSG_LONG_PARAGRAPHS ].

Lemma select_snoc (rules : list (bool * pystr)) (c : bool) (m : pystr) :
  select (rules ++ [(c, m)]) = append_if c m (select rules).
Proof.
  induction rules as [|[c' m'] rules IH]; simpl.
  - now destruct c.
  - rewrite IH. destruct c', c; reflexivity.
Qed.

Lemma make_suggestions_select (ucd : unicode_db) (text : pystr)
    (words sentences : list pystr) (headings : dict Z) (kw : Keywords)
    (kw_flags : Flags) (meta_title meta_desc : pystr) :
  make_suggestions ucd text words sentences headings kw kw_flags
                   meta_title meta_desc
  = Ok (select (rule_table ucd text words sentences headings kw kw_flags
                           meta_title meta_desc)).
Proof.
  unfold rule_table. cbv zeta.
  match goal with
  | |- _ = Ok (select [?e1; ?e2; ?e3; ?e4; ?e5; ?e6; ?e7; ?e8; ?e9; ?e10;
                       ?e11; ?e12; ?e13; ?e14; ?e15; ?e16; ?e17; ?e18; ?e19; ?e20]) =>
      change [e1; e2; e3; e4; e5; e6; e7; e8; e9; e10;
              e11; e12; e13; e14; e15; e16; e17; e18; e19; e20]
        with ((((((((((((((((((((([] ++ [e1]) ++ [e2]) ++ [e3]) ++ [e4]) ++ [e5])
               ++ [e6]) ++ [e7]) ++ [e8]) ++ [e9]) ++ [e10]) ++ [e11]) ++ [e12])
               ++ [e13]) ++ [e14]) ++ [e15]) ++ [e16]) ++ [e17]) ++ [e18])
               ++ [e19]) ++ [e20]))
  end.
  rewrite !select_snoc. cbn [select].
  unfold make_suggestions. cbv zeta.
  destruct (0 <? len sentences)%Z eqn:Es;
    [apply Z.ltb_lt in Es; rewrite truediv_nonzero by lia|];
    cbv [bind]; f_equal;
    destruct (len words <? 300)%Z; destruct (2000 <? len words)%Z;
    destruct (get0 headings (lit "h1") =? 0)%Z;
    destruct (1 <? get0 headings (lit "h1"))%Z;
    destruct (is_empty (target_keyword kw));
    destruct (is_empty (strip meta_title));
    destruct (is_empty (strip meta_desc));
    cbn [append_if andb negb]; reflexivity.
Qed.

(** [l] has no two equal strings, decided. *)
Fixpoint distinctb (l : list pystr) : bool :=
  match l with
  | [] => true
  | x :: t => negb (existsb (pystr_eqb x) t) && distinctb t
  end.

Lemma distinctb_NoDup (l : list pystr) : distinctb l = true -> NoDup l.
Proof.
  induction l as [|x t IH]; simpl; [constructor|].
  rewrite andb_true_iff, negb_true_iff. intros (N & D).
  constructor; [|now apply IH].
  rewrite <- existsb_pystr_eqb. congruence.
Qed.

Lemma ALL_MESSAGES_distinct : NoDup ALL_MESSAGES.
Proof. apply distinctb_NoDup. vm_compute. reflexivity. Qed.

Lemma select_subsequence (rules : list (bool * pystr)) :
  subsequence (select rules) (map snd rules).
Proof.
  induction rules as [|[c m] rules IH]; simpl; [constructor|].
  destruct c; now constructor.
Qed.

Lemma subsequence_In {A : Type} (xs ys : list A) (x : A) :
  subsequence xs ys -> In x xs -> In x ys.
Proof.
  induction 1 as [ys|a xs ys _ IH|a xs ys _ IH]; simpl; [tauto| |]; intuition.
Qed.

Lemma subsequence_NoDup {A : Type} (xs ys : list A) :
  subsequence xs ys -> NoDup ys -> NoDup xs.
Proof.
  induction 1 as [ys|a xs ys S IH|a xs ys S IH]; intros N; [constructor| |].
  - inversion N as [|? ? Hn Hd]; subst. constructor; [|now apply IH].
    intros I. apply Hn. now apply (subsequence_In xs ys).
  - inversion N; subst. now apply IH.
Qed.

Lemma In_select (rules : list (bool * pystr)) (c : bool) (m : pystr) :
  NoDup (map snd rules) -> In (c, m) rules ->
  (In m (select rules) <-> c = true).
Proof.
  induction rules as [|[c' m'] rules IH]; simpl; [tauto|].
  intros N. inversion N as [|? ? Hn Hd]; subst. intros [E|I].
  - injection E as -> ->. destruct c; simpl; [tauto|]. split; [|discriminate].
    intros I. exfalso. apply Hn.
    apply (subsequence_In _ _ m (select_subsequence rules) I).
  - assert (m <> m').
    { intros ->. apply Hn. apply (in_map snd) in I. exact I. }
    specialize (IH Hd I). destruct c'; simpl; [|exact IH].
    rewrite <- IH. split; [intros [F|F]; [congruence | exact F] | tauto].
Qed.

Lemma Ok_inj {A : Type} (a b : A) : Ok a = Ok b -> a = b.
Proof. intros H. now inversion H. Qed.

(** A message is in the suggestions exactly when the condition of its rule
    holds. *)
Lemma suggestion_fires (ucd : unicode_db) (text : pystr)
    (words sentences : list pystr) (headings : dict Z) (kw : Keywords)
    (kw_flags : Flags) (meta_title meta_desc : pystr) (l : list pystr)
    (c : bool) (m : pystr) :
  make_suggestions ucd text words sentences headings kw kw_flags
                   meta_title meta_desc = Ok l ->
  In (c, m) (rule_table ucd text words sentences headings kw kw_flags
                        meta_title meta_desc) ->
  (In m l <-> c = true).
Proof.
  rewrite make_suggestions_select. intros E. apply Ok_inj in E. subst l.
  apply In_select. exact ALL_MESSAGES_distinct.
Qed.

(** X13: [make_suggestions] never raises, and its result is the rule table
    read in order: the messages of the twenty (condition, message) rules
    whose condition holds. *)
Theorem make_suggestions_rule_table (ucd : unicode_db) (text : pystr)
    (words sentences : list pystr) (headings : dict Z) (kw : Keywords)
    (kw_flags : Flags) (meta_title meta_desc : pystr) :
  make_suggestions ucd text words sentences headings kw kw_flags
                   meta_title meta_desc
  = Ok (select (rule_table ucd text words sentences headings kw kw_flags
                           meta_title meta_desc)).
Proof. apply make_suggestions_select. Qed.

(** X14: the suggestions are always a selection of the twenty messages in
    rule order; in particular no message is given twice. *)
Theorem suggestions_ordered_selection (ucd : unicode_db) (text : pystr)
    (words sentences : list pystr) (headings : dict Z) (kw : Keywords)
    (kw_flags : Flags) (meta_title meta_desc : pystr) (l : list pystr) :
  make_suggestions ucd text words sentences headings kw kw_flags
                   meta_title meta_desc = Ok l ->
  subsequence l ALL_MESSAGES /\ NoDup l.
Proof.
  rewrite make_suggestions_select. intros E. apply Ok_inj in E. subst l.
  assert (S : subsequence
                (select (rule_table ucd text words sentences headings kw
                                    kw_flags meta_title meta_desc))
                ALL_MESSAGES) by apply select_subsequence.
  split; [exact S|]. exact (subsequence_NoDup _ _ S ALL_MESSAGES_distinct).
Qed.

Definition no_keywords : Keywords :=
  {| target_keyword := []; target_count := 0; target_density_percent := 0;
     related_keywords := []; related_counts := []; top_terms := [] |}.

Definition no_flags : Flags :=
  {| has_target := false; density_low := false; density_high := false |}.

Lemma suggestions_ordered_selection_witness :
  exists l,
    make_suggestions ascii_only_db [] [] [] [] no_keywords no_flags [] [] = Ok l
    /\ NoDup l.
Proof.
  eexists. split; [vm_compute; reflexivity|].
  refine (proj2 (suggestions_ordered_selection ascii_only_db
                   [] [] [] [] no_keywords no_flags [] [] _ _)).
  vm_compute. reflexivity.
Defined.

Lemma suggestion_fires_nth (ucd : unicode_db) (text : pystr)
    (words sentences : list pystr) (headings : dict Z) (kw : Keywords)
    (kw_flags : Flags) (meta_title meta_desc : pystr) (l : list pystr)
    (k : nat) (c : bool) (m : pystr) :
  make_suggestions ucd text words sentences headings kw kw_flags
                   meta_title meta_desc = Ok l ->
  nth_error (rule_table ucd text words sentences headings kw kw_flags
                        meta_title meta_desc) k = Some (c, m) ->
  (In m l <-> c = true).
Proof.
  intros E H. apply (suggestion_fires _ _ _ _ _ _ _ _ _ _ _ _ E).
  exact (nth_error_In _ k H).
Qed.

Lemma is_empty_true {A : Type} (xs : list A) : is_empty xs = true <-> xs = [].
Proof. destruct xs; simpl; split; congruence. Qed.

Lemma len_gt_nonempty {A : Type} (xs : list A) (n : Z) :
  (0 <= n)%Z -> (n < len xs)%Z -> is_empty xs = false.
Proof. destruct xs; unfold len; simpl; [lia | reflexivity]. Qed.

(** X15: when each of the structural rules fires.  The add-depth message is
    given exactly below 300 words and the trim message exactly above 2000;
    add-H1 exactly when there is no H1 and use-one-H1 exactly when there are
    several; add-H2 exactly when there is no H2; add-H3 exactly when there
    is no H3 and at least 700 words; add-target exactly when the target
    keyword is empty; add-meta-title (add-meta-description) exactly when the
    stripped title (description) is empty, the long-title message exactly
    above 65 characters and the long-description message exactly above
    170. *)
Theorem suggestion_conditions (ucd : unicode_db) (text : pystr)
    (words sentences : list pystr) (headings : dict Z) (kw : Keywords)
    (kw_flags : Flags) (meta_title meta_desc : pystr) (l : list pystr) :
  make_suggestions ucd text words sentences headings kw kw_flags
                   meta_title meta_desc = Ok l ->
  (In MSG_ADD_DEPTH l <-> (len words < 300)%Z)
  /\ (In MSG_TRIM l <-> (2000 < len words)%Z)
  /\ (In MSG_ADD_H1 l <-> get0 headings (lit "h1") = 0%Z)
  /\ (In MSG_ONE_H1 l <-> (1 < get0 headings (lit "h1"))%Z)
  /\ (In MSG_ADD_H2 l <-> get0 headings (lit "h2") = 0%Z)
  /\ (In MSG_ADD_H3 l <->
        get0 headings (lit "h3") = 0%Z /\ (700 <= len words)%Z)
  /\ (In MSG_ADD_TARGET l <-> target_keyword kw = [])
  /\ (In MSG_ADD_META_TITLE l <-> strip meta_title = [])
  /\ (In MSG_META_TITLE_LONG l <-> (65 < len (strip meta_title))%Z)
  /\ (In MSG_ADD_META_DESC l <-> strip meta_desc = [])
  /\ (In MSG_META_DESC_LONG l <-> (170 < len (strip meta_desc))%Z).
Proof.
  intros E.
  pose proof (fun k c m => suggestion_fires_nth ucd text words sentences
                headings kw kw_flags meta_title meta_desc l k c m E) as F.
  pose proof (F 0%nat _ _ eq_refl) as R0.
  pose proof (F 1%nat _ _ eq_refl) as R1.
  pose proof (F 3%nat _ _ eq_refl) as R3.
  pose proof (F 4%nat _ _ eq_refl) as R4.
  pose proof (F 5%nat _ _ eq_refl) as R5.
  pose proof (F 6%nat _ _ eq_refl) as R6.
  pose proof (F 10%nat _ _ eq_refl) as R10.
  pose proof (F 11%nat _ _ eq_refl) as R11.
  pose proof (F 13%nat _ _ eq_refl) as R13.
  pose proof (F 15%nat _ _ eq_refl) as R15.
  pose proof (F 17%nat _ _ eq_refl) as R17.
  clear F E.
  rewrite R0, R1, R3, R4, R5, R6, R10, R11, R13, R15, R17.
  clear R0 R1 R3 R4 R5 R6 R10 R11 R13 R15 R17.
  rewrite ?negb_involutive, ?andb_true_iff, ?negb_true_iff, ?is_empty_true,
    ?Z.ltb_lt, ?Z.ltb_ge, ?Z.eqb_eq, ?Z.eqb_neq, ?Z.leb_le.
  repeat split; try tauto; try lia.
  - apply (len_gt_nonempty _ 65); [lia | assumption].
  - apply (len_gt_nonempty _ 170); [lia | assumption].
Qed.

Lemma suggestion_conditions_witness :
  exists l,
    make_suggestions ascii_only_db [] [] [] [] no_keywords no_flags [] [] = Ok l
    /\ In MSG_ADD_DEPTH l.
Proof.
  eexists. split; [vm_compute; reflexivity|].
  refine (proj2 (proj1 (suggestion_conditions ascii_only_db
                          [] [] [] [] no_keywords no_flags [] [] _ _)) _).
  - vm_compute. reflexivity.
  - reflexivity.
Defined.

(** X16: messages that never come together.  The add-depth and trim
    messages, the add-H1 and use-one-H1 messages, the short and long title
    messages and the short and long description messages exclude each other;
    the add-target message excludes every message about the target keyword;
    the add-meta-title (add-meta-description) message excludes every other
    message about the title (description). *)
Theorem suggestions_exclusive (ucd : unicode_db) (text : pystr)
    (words sentences : list pystr) (headings : dict Z) (kw : Keywords)
    (kw_flags : Flags) (meta_title meta_desc : pystr) (l : list pystr) :
  make_suggestions ucd text words sentences headings kw kw_flags
                   meta_title meta_desc = Ok l ->
  ~ (In MSG_ADD_DEPTH l /\ In MSG_TRIM l)
  /\ ~ (In MSG_ADD_H1 l /\ In MSG_ONE_H1 l)
  /\ ~ (In MSG_META_TITLE_SHORT l /\ In MSG_META_TITLE_LONG l)
  /\ ~ (In MSG_META_DESC_SHORT l /\ In MSG_META_DESC_LONG l)
  /\ (In MSG_ADD_TARGET l ->
        ~ In MSG_INCLUDE_TARGET l /\ ~ In MSG_DENSITY_LOW l
        /\ ~ In MSG_DENSITY_HIGH l /\ ~ In MSG_META_TITLE_KEYWORD l
        /\ ~ In MSG_META_DESC_KEYWORD l)
  /\ (In MSG_ADD_META_TITLE l ->
        ~ In MSG_META_TITLE_SHORT l /\ ~ In MSG_META_TITLE_LONG l
        /\ ~ In MSG_META_TITLE_KEYWORD l)
  /\ (In MSG_ADD_META_DESC l ->
        ~ In MSG_META_DESC_SHORT l /\ ~ In MSG_META_DESC_LONG l
        /\ ~ In MSG_META_DESC_KEYWORD l).
Proof.
  intros E.
  pose proof (fun k c m => suggestion_fires_nth ucd text words sentences
                headings kw kw_flags meta_title meta_desc l k c m E) as F.
  pose proof (F 0%nat _ _ eq_refl) as R0.
  pose proof (F 1%nat _ _ eq_refl) as R1.
  pose proof (F 3%nat _ _ eq_refl) as R3.
  pose proof (F 4%nat _ _ eq_refl) as R4.
  pose proof (F 7%nat _ _ eq_refl) as R7.
  pose proof (F 8%nat _ _ eq_refl) as R8.
  pose proof (F 9%nat _ _ eq_refl) as R9.
  pose proof (F 10%nat _ _ eq_refl) as R10.
  pose proof (F 11%nat _ _ eq_refl) as R11.
  pose proof (F 12%nat _ _ eq_refl) as R12.
  pose proof (F 13%nat _ _ eq_refl) as R13.
  pose proof (F 14%nat _ _ eq_refl) as R14.
  pose proof (F 15%nat _ _ eq_refl) as R15.
  pose proof (F 16%nat _ _ eq_refl) as R16.
  pose proof (F 17%nat _ _ eq_refl) as R17.
  pose proof (F 18%nat _ _ eq_refl) as R18.
  clear F E.
  rewrite R0, R1, R3, R4, R7, R8, R9, R10, R11, R12, R13, R14, R15, R16, R17, R18.
  clear R0 R1 R3 R4 R7 R8 R9 R10 R11 R12 R13 R14 R15 R16 R17 R18.
  destruct (is_empty (target_keyword kw)), (is_empty (strip meta_title)),
    (is_empty (strip meta_desc)), (len words <? 300)%Z,
    (get0 headings (lit "h1") =? 0)%Z; cbn [negb andb];
    rewrite ?andb_true_iff, ?Z.ltb_lt;
    repeat split; try (intros; intuition (congruence || lia)).
Qed.

Lemma suggestions_exclusive_witness :
  exists l,
    make_suggestions ascii_only_db [] [] [] [] no_keywords no_flags [] [] = Ok l
    /\ ~ (In MSG_ADD_DEPTH l /\ In MSG_TRIM l).
Proof.
  eexists. split; [vm_compute; reflexivity|].
  refine (proj1 (suggestions_exclusive ascii_only_db
                   [] [] [] [] no_keywords no_flags [] [] _ _)).
  vm_compute. reflexivity.
Defined.

(** ** The orchestrator, further *)

(** X17: no analysis advises both that the keyword density is low and that
    it is high. *)
Theorem analyze_density_advice_exclusive (ucd : unicode_db) (payload : Payload)
    (res : AnalysisResult) :
  analyze ucd payload = Ok res ->
  ~ (In MSG_DENSITY_LOW (suggestions res) /\ In MSG_DENSITY_HIGH (suggestions res)).
Proof.
  intros E.
  destruct (analyze_returns ucd payload)
    as (res' & flags & E' & _ & _ & _ & _ & Hkw & Hs).
  rewrite E in E'. apply Ok_inj in E'. subst res'.
  pose proof (keyword_flags_disjoint _ _ _ _ _ _ Hkw) as D.
  pose proof (fun k c m => suggestion_fires_nth _ _ _ _ _ _ _ _ _ _ k c m Hs) as F.
  pose proof (F 8%nat _ _ eq_refl) as R8.
  pose proof (F 9%nat _ _ eq_refl) as R9.
  rewrite R8, R9, !andb_true_iff. intros ((_ & L) & (_ & H)).
  rewrite L, H in D. discriminate.
Qed.

Lemma analyze_density_advice_exclusive_witness :
  exists res,
    analyze ascii_only_db scenario_payload = Ok res
    /\ ~ (In MSG_DENSITY_LOW (suggestions res)
          /\ In MSG_DENSITY_HIGH (suggestions res)).
Proof.
  eexists. split; [vm_compute; reflexivity|].
  refine (analyze_density_advice_exclusive ascii_only_db scenario_payload _ _).
  vm_compute. reflexivity.
Defined.

Lemma WORD_RE_findall_count (cur text : pystr) :
  (length (WORD_RE_findall cur text)
   <= length text + (if is_empty cur then 0 else 1))%nat.
Proof.
  revert cur. induction text as [|c t IH]; intros cur; simpl.
  - destruct cur; simpl; lia.
  - destruct (is_WORD_RE_char c).
    + specialize (IH (c :: cur)). simpl in IH. destruct cur; simpl; lia.
    + rewrite length_app. specialize (IH []). simpl in IH.
      destruct cur; simpl; lia.
Qed.

(** X18: in every result, the word count is at most the character count,
    which is at most the length of the raw content. *)
Theorem analyze_counts_ordered (ucd : unicode_db) (payload : Payload)
    (res : AnalysisResult) :
  analyze ucd payload = Ok res ->
  (0 <= word_count (stats res) <= character_count (stats res))%Z
  /\ (character_count (stats res)
      <= len (get_or_empty (payload_content payload)))%Z.
Proof.
  intros E.
  destruct (analyze_returns ucd payload) as (res' & _ & E' & W & _ & C & _).
  rewrite E in E'. apply Ok_inj in E'. subst res'. rewrite W, C.
  split; [|apply normalize_text_length].
  split; [apply len_nonneg|].
  unfold tokenize_words, len. rewrite length_map.
  pose proof (WORD_RE_findall_count []
                (normalize_text (get_or_empty (payload_content payload)))) as H.
  cbn [is_empty] in H. rewrite Nat.add_0_r in H.
  apply Nat2Z.inj_le. exact H.
Qed.

Lemma analyze_counts_ordered_witness :
  exists res,
    analyze ascii_only_db scenario_payload = Ok res
    /\ (character_count (stats res)
        <= len (get_or_empty (payload_content scenario_payload)))%Z.
Proof.
  eexists. split; [vm_compute; reflexivity|].
  refine (proj2 (analyze_counts_ordered ascii_only_db scenario_payload _ _)).
  vm_compute. reflexivity.
Defined.

(** ** Blank content and paragraphs *)

(** The whole result of [analyze], stage by stage. *)
Lemma analyze_result (ucd : unicode_db) (payload : Payload) :
  let raw_text := get_or_empty (payload_content payload) in
  let text := normalize_text raw_text in
  let words := tokenize_words text in
  let sentences := split_sentences text in
  exists score kw flags l,
    flesch_reading_ease words sentences = Ok score
    /\ keyword_metrics ucd words
         (get_or_empty (payload_target_keyword payload))
         (get_or_empty (payload_related_keywords payload)) = Ok (kw, flags)
    /\ make_suggestions ucd raw_text words sentences
         (extract_headings ucd raw_text) kw flags
         (get_or_empty (payload_meta_title payload))
         (get_or_empty (payload_meta_description payload)) = Ok l
    /\ analyze ucd payload =
       Ok {| stats :=
               {| word_count := len words;
                  character_count := len text;
                  sentence_count := len sentences;
                  paragraph_count :=
                    len (filter nonblank (split_blank_lines [] None raw_text)) |};
             keywords := kw;
             headings := extract_headings ucd raw_text;
             readability :=
               {| r_flesch_reading_ease := score;
                  r_level := score_band score;
                  r_avg_words_per_sentence :=
                    py_round (float_of_int (len words)
                              / float_of_int (Z.max 1 (len sentences))) 2 |};
             suggestions := l |}.
Proof.
  intros raw_text text words sentences.
  destruct (flesch_reading_ease_total words sentences) as [score E1].
  destruct (keyword_metrics_returns ucd words
              (get_or_empty (payload_target_keyword payload))
              (get_or_empty (payload_related_keywords payload)))
    as (kw & flags & E2 & _).
  destruct (make_suggestions_total ucd raw_text words sentences
              (extract_headings ucd raw_text) kw flags
              (get_or_empty (payload_meta_title payload))
              (get_or_empty (payload_meta_description payload))) as [l E3].
  exists score, kw, flags, l. repeat split; try assumption.
  unfold analyze.
  fold raw_text. fold text. fold words. fold sentences.
  rewrite truediv_nonzero by lia. cbv beta iota delta [bind].
  rewrite E1, E2, E3. reflexivity.
Qed.

Lemma lstrip_blank (s : pystr) :
  Forall (fun c => isspace c = true) s -> lstrip s = [].
Proof.
  induction 1 as [|c t Hc _ IH]; simpl; [reflexivity|]. now rewrite Hc.
Qed.

(** A string strips to nothing exactly when it is all whitespace. *)
Lemma strip_nil_iff (s : pystr) :
  strip s = [] <-> Forall (fun c => isspace c = true) s.
Proof.
  split.
  - intros E. apply Forall_forall. intros c Hc.
    destruct (isspace c) eqn:W; [reflexivity|].
    apply (In_strip c s W) in Hc. rewrite E in Hc. destruct Hc.
  - intros H. unfold strip. now rewrite (lstrip_blank s H).
Qed.

Lemma nonblank_false_iff (s : pystr) :
  nonblank s = false <-> Forall (fun c => isspace c = true) s.
Proof.
  rewrite <- strip_nil_iff. unfold nonblank.
  destruct (strip s); split; congruence.
Qed.

(** A character that is no whitespace lands in a piece of the paragraph
    split. *)
Lemma split_blank_lines_keeps (c : N) (text cur : pystr) (pend : option blank_run) :
  isspace c = false ->
  In c cur \/ In c text ->
  exists p, In p (split_blank_lines cur pend text) /\ In c p.
Proof.
  intros Hs. revert cur pend.
  assert (N10 : c <> 10%N) by (intros ->; discriminate Hs).
  induction text as [|a t IH]; intros cur pend H.
  - destruct H as [H|[]]. simpl. destruct pend as [r|].
    + destruct (complete r).
      * exists (rev cur). rewrite <- in_rev. simpl. auto.
      * exists (rev (tail r ++ 10%N :: cur)). rewrite <- in_rev. split.
        -- simpl. auto.
        -- apply in_or_app. right. now right.
    + exists (rev cur). rewrite <- in_rev. simpl. auto.
  - simpl. destruct pend as [r|].
    + destruct (a =? 10)%N eqn:E10.
      * apply N.eqb_eq in E10. subst a. apply IH.
        destruct H as [H|[F|H]]; auto. congruence.
      * destruct (isspace a) eqn:Ea.
        -- apply IH. destruct H as [H|[F|H]]; auto. congruence.
        -- destruct (complete r).
           ++ destruct H as [H|H].
              ** exists (rev cur). rewrite <- in_rev. simpl. auto.
              ** destruct (IH (a :: tail r) None) as (p & Hp & Hc).
                 { destruct H as [->|H]; [left; now left | now right]. }
                 exists p. simpl. auto.
           ++ apply IH. destruct H as [H|[->|H]]; auto.
              ** left. right. apply in_or_app. right. now right.
              ** left. now left.
    + destruct (a =? 10)%N eqn:E10.
      * apply N.eqb_eq in E10. subst a. apply IH.
        destruct H as [H|[F|H]]; auto. congruence.
      * apply IH. destruct H as [H|[->|H]]; auto.
        -- left. now right.
        -- left. now left.
Qed.

(** The pieces of an all-whitespace text are all whitespace. *)
Lemma split_blank_lines_blank (text cur : pystr) (pend : option blank_run) :
  Forall (fun c => isspace c = true) cur ->
  (forall r, pend = Some r -> Forall (fun c => isspace c = true) (tail r)) ->
  Forall (fun c => isspace c = true) text ->
  Forall (Forall (fun c => isspace c = true)) (split_blank_lines cur pend text).
Proof.
  intros Hc Hp Ht. revert cur pend Hc Hp.
  induction Ht as [|a t Ha Ht IH]; intros cur pend Hc Hp; simpl.
  - destruct pend as [r|].
    + specialize (Hp r eq_refl). destruct (complete r).
      * repeat constructor; now apply Forall_rev.
      * repeat constructor. apply Forall_rev, Forall_app. split; [exact Hp|].
        constructor; [reflexivity | exact Hc].
    + repeat constructor. now apply Forall_rev.
  - destruct pend as [r|].
    + specialize (Hp r eq_refl). destruct (a =? 10)%N.
      * apply IH; [exact Hc|]. intros r' E. injection E as <-. constructor.
      * rewrite Ha. apply IH; [exact Hc|].
        intros r' E. injection E as <-. simpl. now constructor.
    + destruct (a =? 10)%N.
      * apply IH; [exact Hc|]. intros r' E. injection E as <-. constructor.
      * apply IH; [now constructor|]. intros r' E. discriminate E.
Qed.

Lemma paragraph_count_zero_blank_aux (ucd : unicode_db) (payload : Payload)
    (res : AnalysisResult) :
  analyze ucd payload = Ok res ->
  (paragraph_count (stats res) = 0%Z
   <-> strip (get_or_empty (payload_content payload)) = []).
Proof.
  intros E.
  destruct (analyze_result ucd payload) as (score & kw & flags & l & _ & _ & _ & A).
  rewrite E in A. apply Ok_inj in A. subst res. cbn [stats paragraph_count].
  set (raw := get_or_empty (payload_content payload)).
  split.
  - intros Z0. apply strip_nil_iff, Forall_forall. intros c Hc.
    destruct (isspace c) eqn:W; [reflexivity|]. exfalso.
    destruct (split_blank_lines_keeps c raw [] None W (or_intror Hc))
      as (p & Hp & Hcp).
    assert (I : In p (filter nonblank (split_blank_lines [] None raw))).
    { apply filter_In. split; [exact Hp | now apply (nonblank_of_In c)]. }
    unfold len in Z0.
    destruct (filter nonblank (split_blank_lines [] None raw));
      [destruct I | simpl length in Z0; lia].
  - intros B. apply strip_nil_iff in B.
    assert (F : Forall (Forall (fun c => isspace c = true))
                  (split_blank_lines [] None raw)).
    { apply split_blank_lines_blank; [constructor | discriminate | exact B]. }
    assert (N : filter nonblank (split_blank_lines [] None raw) = []).
    { induction F as [|p ps Hp _ IH]; simpl; [reflexivity|].
      apply nonblank_false_iff in Hp. now rewrite Hp. }
    now rewrite N.
Qed.

(** X19: the paragraph count of a result is 0 exactly when the raw content
    is empty or all whitespace. *)
Theorem paragraph_count_zero_iff_blank (ucd : unicode_db) (payload : Payload)
    (res : AnalysisResult) :
  analyze ucd payload = Ok res ->
  (paragraph_count (stats res) = 0%Z
   <-> strip (get_or_empty (payload_content payload)) = []).
Proof. apply paragraph_count_zero_blank_aux. Qed.

Lemma paragraph_count_zero_iff_blank_witness :
  exists res,
    analyze ascii_only_db (content_payload (lit "  ") []) = Ok res
    /\ paragraph_count (stats res) = 0%Z.
Proof.
  eexists. split; [vm_compute; reflexivity|].
  refine (proj2 (paragraph_count_zero_iff_blank ascii_only_db
                   (content_payload (lit "  ") []) _ _) _).
  - vm_compute. reflexivity.
  - reflexivity.
Defined.

Lemma normalize_text_blank (s : pystr) :
  Forall (fun c => isspace c = true) s -> normalize_text s = [].
Proof.
  intros H. unfold normalize_text. apply strip_nil_iff.
  apply Forall_sub_ws_runs; [reflexivity|].
  unfold replace_char. rewrite !map_map. apply Forall_map.
  eapply Forall_impl; [|exact H]. intros c Hc. simpl.
  destruct (c =? 8217)%N eqn:E1;
    [apply N.eqb_eq in E1; subst; discriminate Hc|].
  destruct (c =? 8220)%N eqn:E2;
    [apply N.eqb_eq in E2; subst; discriminate Hc|].
  destruct (c =? 8221)%N eqn:E3;
    [apply N.eqb_eq in E3; subst; discriminate Hc|].
  exact Hc.
Qed.

(** X20: for a content that is empty or all whitespace, [analyze] returns
    zero words, characters, sentences and paragraphs, the reading ease 0.0
    with the level "Very difficult", an average sentence length of 0.0, and
    the add-depth suggestion. *)
Theorem analyze_blank_content (ucd : unicode_db) (payload : Payload)
    (res : AnalysisResult) :
  strip (get_or_empty (payload_content payload)) = [] ->
  analyze ucd payload = Ok res ->
  word_count (stats res) = 0%Z
  /\ character_count (stats res) = 0%Z
  /\ sentence_count (stats res) = 0%Z
  /\ paragraph_count (stats res) = 0%Z
  /\ r_flesch_reading_ease (readability res) = 0%float
  /\ r_level (readability res) = lit "Very difficult"
  /\ r_avg_words_per_sentence (readability res) = 0%float
  /\ In MSG_ADD_DEPTH (suggestions res).
Proof.
  intros B E.
  pose proof (proj2 (paragraph_count_zero_blank_aux ucd payload res E) B) as P.
  destruct (analyze_result ucd payload)
    as (score & kw & flags & l & F & _ & S & A).
  rewrite E in A. apply Ok_inj in A.
  apply strip_nil_iff in B.
  rewrite (normalize_text_blank _ B) in F, S, A.
  change (tokenize_words []) with (@nil pystr) in F, S, A.
  change (split_sentences []) with (@nil pystr) in F, S, A.
  change (flesch_reading_ease [] []) with (Ok 0%float) in F.
  apply Ok_inj in F. subst score.
  pose proof (suggestion_fires_nth _ _ _ _ _ _ _ _ _ _ 0%nat _ _ S eq_refl) as R0.
  subst res. cbn [stats readability suggestions word_count character_count
    sentence_count paragraph_count r_flesch_reading_ease r_level
    r_avg_words_per_sentence] in *.
  repeat split; try reflexivity.
  - exact P.
  - apply R0. reflexivity.
Qed.

Lemma analyze_blank_content_witness :
  exists res,
    analyze ascii_only_db (content_payload (lit "  ") []) = Ok res
    /\ word_count (stats res) = 0%Z.
Proof.
  eexists. split; [vm_compute; reflexivity|].
  refine (proj1 (analyze_blank_content ascii_only_db
                   (content_payload (lit "  ") []) _ _ _)).
  - reflexivity.
  - vm_compute. reflexivity.
Defined.

(** ** Texts without heading markers *)

Lemma count_hashes_cons (a : N) (t : pystr) :
  count_hashes (a :: t) =
  if (a =? 35)%N then (let '(n, rest) := count_hashes t in (S n, rest))
  else (O, a :: t).
Proof.
  destruct (a =? 35)%N eqn:E.
  - apply N.eqb_eq in E. subst a. reflexivity.
  - destruct a as [|p]; [reflexivity|].
    do 6 (try (destruct p as [p|p|]; try reflexivity)).
    all: exfalso; vm_compute in E; discriminate E.
Qed.

Lemma md_heading_level_no_hash (line : pystr) :
  Forall (fun c => c <> 35%N) line -> md_heading_level line = None.
Proof.
  intros H. apply (Forall_lstrip _ line) in H. unfold md_heading_level.
  destruct (lstrip line) as [|a t]; [reflexivity|].
  rewrite count_hashes_cons.
  inversion H as [|? ? Ha _]; subst. apply N.eqb_neq in Ha. now rewrite Ha.
Qed.

Lemma splitlines_from_chars (P : N -> Prop) (text cur : pystr) :
  Forall P cur -> Forall P text ->
  Forall (Forall P) (splitlines_from cur text).
Proof.
  assert (F : forall cur, Forall P cur -> Forall (Forall P) (flush cur)).
  { intros [|a l] H; simpl; repeat constructor.
    apply Forall_app. split; [apply Forall_rev; now inversion H|].
    constructor; [now inversion H | constructor]. }
  revert cur. induction text as [|c t IH]; intros cur Hc Ht; simpl; [now apply F|].
  inversion Ht as [|? ? Pc Pt]; subst.
  destruct (c =? 13)%N.
  - assert (R : Forall (Forall P) (rev cur :: splitlines_from [] t)).
    { constructor; [now apply Forall_rev | apply IH; [constructor | exact Pt]]. }
    destruct t as [|d t']; [exact R|].
    destruct d as [|p]; [exact R|].
    do 4 (try (destruct p as [p|p|]; try exact R)).
    constructor; [now apply Forall_rev|].
    inversion R as [|? ? _ R']; subst. simpl in R'. now inversion R'.
  - destruct (is_linebreak c).
    + constructor; [now apply Forall_rev | apply IH; [constructor | exact Pt]].
    + apply IH; [now constructor | exact Pt].
Qed.

Lemma count_open_tags_no_lt (ucd : unicode_db) (level : Z) (text : pystr) :
  Forall (fun c => c <> 60%N) text -> count_open_tags ucd level text = 0%Z.
Proof.
  induction 1 as [|c t Hc _ IH]; simpl; [reflexivity|].
  apply N.eqb_neq in Hc. rewrite Hc, IH. reflexivity.
Qed.

(** X21: a text with no [#] and no [<] has no heading: all six counts
    are 0. *)
Theorem extract_headings_no_marker (ucd : unicode_db) (text : pystr) :
  Forall (fun c => c <> 35%N) text ->
  Forall (fun c => c <> 60%N) text ->
  extract_headings ucd text =
    [ (lit "h1", 0%Z); (lit "h2", 0%Z); (lit "h3", 0%Z);
      (lit "h4", 0%Z); (lit "h5", 0%Z); (lit "h6", 0%Z) ].
Proof.
  intros H35 H60. rewrite extract_headings_counts.
  change [ (lit "h1", 0%Z); (lit "h2", 0%Z); (lit "h3", 0%Z);
           (lit "h4", 0%Z); (lit "h5", 0%Z); (lit "h6", 0%Z) ]
    with (map (fun i => (hkey i, 0%Z)) levels).
  apply map_ext. intros i. f_equal.
  rewrite (count_open_tags_no_lt ucd i text H60).
  unfold md_count, splitlines.
  pose proof (splitlines_from_chars (fun c => c <> 35%N) text []
                (Forall_nil _) H35) as L.
  induction L as [|line lines Hl _ IH]; [reflexivity|].
  simpl. now rewrite (md_heading_level_no_hash line Hl).
Qed.

Lemma extract_headings_no_marker_witness :
  extract_headings ascii_only_db (lit "Just a paragraph.") =
    [ (lit "h1", 0%Z); (lit "h2", 0%Z); (lit "h3", 0%Z);
      (lit "h4", 0%Z); (lit "h5", 0%Z); (lit "h6", 0%Z) ].
Proof.
  apply (extract_headings_no_marker ascii_only_db (lit "Just a paragraph."));
    apply Forall_forall; intros c Hc;
    repeat (destruct Hc as [<-|Hc]; [discriminate|]); destruct Hc.
Defined.

(** ** One-word targets *)

(** A lower-case letter or a digit. *)
Definition is_plain (c : N) : bool := is_lower c || is_ascii_digit c.

Lemma is_plain_bounds (c : N) :
  is_plain c = true -> (48 <= c <= 57 \/ 97 <= c <= 122)%N.
Proof.
  unfold is_plain, is_lower, is_ascii_digit, in_range.
  rewrite orb_true_iff, !andb_true_iff, !N.leb_le. lia.
Qed.

Lemma is_plain_ascii (c : N) : is_plain c = true -> is_ascii c = true.
Proof.
  intros H. apply is_plain_bounds in H. unfold is_ascii. apply N.ltb_lt. lia.
Qed.

Lemma is_plain_not_upper (c : N) : is_plain c = true -> is_upper c = false.
Proof.
  intros H. apply is_plain_bounds in H. unfold is_upper, in_range.
  apply andb_false_iff. rewrite !N.leb_gt. lia.
Qed.

Lemma is_plain_word (ucd : unicode_db) (c : N) :
  is_plain c = true -> is_word ucd c = true.
Proof.
  intros H. unfold is_word. rewrite (is_plain_ascii c H).
  unfold is_plain in H. apply orb_true_iff in H.
  destruct H as [H|H]; rewrite H; [now rewrite orb_true_r | now rewrite !orb_true_r].
Qed.

Lemma ignorecase_eq_plain (ucd : unicode_db) (a c : N) :
  is_plain a = true -> is_plain c = true ->
  ignorecase_eq ucd a c = (a =? c)%N.
Proof.
  intros Ha Hc. unfold ignorecase_eq, ascii_lower_char.
  now rewrite (is_plain_ascii a Ha), (is_plain_ascii c Hc),
    (is_plain_not_upper a Ha), (is_plain_not_upper c Hc).
Qed.

Lemma ignorecase_eq_plain_space (ucd : unicode_db) (a : N) :
  is_plain a = true -> ignorecase_eq ucd a 32 = false.
Proof.
  intros Ha. unfold ignorecase_eq, ascii_lower_char.
  rewrite (is_plain_ascii a Ha), (is_plain_not_upper a Ha).
  change (is_ascii 32) with true. change (is_upper 32) with false. cbv iota.
  simpl andb. apply N.eqb_neq. apply is_plain_bounds in Ha. lia.
Qed.

(** What follows a token in the joined text: nothing, or a space. *)
Definition after_token (rest : pystr) : Prop :=
  rest = [] \/ exists r, rest = 32%N :: r.

Lemma word_boundary_after_token (ucd : unicode_db) (p : N) (rest : pystr) :
  is_plain p = true -> after_token rest ->
  word_boundary ucd (Some p) (hd_error rest) = true.
Proof.
  intros Hp [->|(r & ->)]; unfold word_boundary; simpl;
    now rewrite (is_plain_word ucd p Hp).
Qed.

(** Inside the joined text a plain target matches at a token exactly when
    it is the token. *)
Lemma literal_then_boundary_token (ucd : unicode_db) (t w rest : pystr) (p : N) :
  Forall (fun c => is_plain c = true) t ->
  Forall (fun c => is_plain c = true) w ->
  is_plain p = true -> after_token rest ->
  literal_then_boundary ucd t (Some p) (w ++ rest) = pystr_eqb t w.
Proof.
  intros Ht. revert w p. induction Ht as [|a t Ha Ht IH]; intros w p Hw Hp Hr.
  - destruct w as [|c w]; simpl.
    + now apply word_boundary_after_token.
    + inversion Hw; subst. unfold word_boundary. simpl.
      now rewrite (is_plain_word ucd p Hp), (is_plain_word ucd c).
  - destruct w as [|c w]; simpl.
    + destruct Hr as [->|(r & ->)]; [reflexivity|].
      now rewrite (ignorecase_eq_plain_space ucd a Ha).
    + inversion Hw; subst.
      rewrite (ignorecase_eq_plain ucd a c) by assumption.
      now rewrite IH.
Qed.

(** Nothing matches inside a token, whatever is left to skip of a match
    that ends with the token. *)
Lemma count_phrase_inside_token (ucd : unicode_db) (t w rest : pystr)
    (k : nat) (p : N) :
  Forall (fun c => is_plain c = true) w ->
  is_plain p = true -> (k <= length w)%nat ->
  exists q, is_plain q = true
    /\ count_phrase ucd t k (Some p) (w ++ rest)
       = count_phrase ucd t 0 (Some q) rest.
Proof.
  intros Hw. revert k p. induction Hw as [|c w Hc Hw IH]; intros k p Hp Hk.
  - simpl in Hk. assert (k = 0%nat) by lia. subst k. now exists p.
  - simpl app. destruct k as [|k]; cbn [count_phrase].
    + unfold word_boundary at 1. cbn [is_word_opt].
      rewrite (is_plain_word ucd p Hp), (is_plain_word ucd c Hc).
      cbn [xorb andb]. apply IH; [exact Hc | lia].
    + apply IH; [exact Hc | simpl in Hk; lia].
Qed.

Lemma count_phrase_at_space (ucd : unicode_db) (a : N) (t r : pystr) (q : N) :
  is_plain a = true -> is_plain q = true ->
  count_phrase ucd (a :: t) 0 (Some q) (32%N :: r)
  = count_phrase ucd (a :: t) 0 (Some 32%N) r.
Proof.
  intros Ha Hq. cbn [count_phrase literal_then_boundary].
  rewrite (ignorecase_eq_plain_space ucd a Ha).
  now rewrite andb_false_l, andb_false_r.
Qed.

(** A boundary that is no word character: the start of the text, or a
    space. *)
Definition token_start (before : option N) : Prop :=
  before = None \/ before = Some 32%N.

Lemma count_phrase_token (ucd : unicode_db) (a : N) (t : pystr) (c : N)
    (w rest : pystr) (before : option N) :
  Forall (fun x => is_plain x = true) (a :: t) ->
  Forall (fun x => is_plain x = true) (c :: w) ->
  token_start before -> after_token rest ->
  exists q, is_plain q = true
    /\ count_phrase ucd (a :: t) 0 before ((c :: w) ++ rest)
       = ((if pystr_eqb (a :: t) (c :: w) then 1 else 0)
          + count_phrase ucd (a :: t) 0 (Some q) rest)%Z.
Proof.
  intros Ht Hw Hb Hr.
  inversion Ht as [|? ? Ha Ht']; subst. inversion Hw as [|? ? Hc Hw']; subst.
  simpl app. cbn [count_phrase].
  assert (B : word_boundary ucd before (Some c) = true).
  { unfold word_boundary. cbn [is_word_opt]. rewrite (is_plain_word ucd c Hc).
    destruct Hb as [->| ->]; reflexivity. }
  rewrite B, andb_true_l. cbn [literal_then_boundary].
  rewrite (ignorecase_eq_plain ucd a c Ha Hc).
  rewrite (literal_then_boundary_token ucd t w rest c Ht' Hw' Hc Hr).
  change ((a =? c)%N && pystr_eqb t w) with (pystr_eqb (a :: t) (c :: w)).
  destruct (pystr_eqb (a :: t) (c :: w)) eqn:E.
  - apply pystr_eqb_true in E. injection E as -> ->.
    destruct (count_phrase_inside_token ucd (c :: w) w rest
                (length (c :: w) - 1) c Hw' Hc) as (q & Hq & Eq).
    { simpl. lia. }
    exists q. split; [exact Hq|]. now rewrite Eq.
  - destruct (count_phrase_inside_token ucd (a :: t) w rest 0 c Hw' Hc)
      as (q & Hq & Eq); [lia|].
    exists q. split; [exact Hq|]. now rewrite Eq.
Qed.

Lemma occurrences_cons (t w : pystr) (words : list pystr) :
  occurrences t (w :: words)
  = ((if pystr_eqb t w then 1 else 0) + occurrences t words)%Z.
Proof.
  unfold occurrences, len. simpl. destruct (pystr_eqb t w); simpl length; lia.
Qed.

(** On tokens without apostrophe, a one-word target is counted once per
    token equal to it. *)
Lemma count_phrase_tokens (ucd : unicode_db) (a : N) (t : pystr)
    (words : list pystr) (before : option N) :
  Forall (fun x => is_plain x = true) (a :: t) ->
  Forall (fun w => w <> [] /\ Forall (fun x => is_plain x = true) w) words ->
  token_start before ->
  count_phrase ucd (a :: t) 0 before (join (lit " ") words)
  = occurrences (a :: t) words.
Proof.
  intros Ht Hw. revert before.
  induction Hw as [|w words (Hne & Hp) Hws IH]; intros before Hb.
  - reflexivity.
  - destruct w as [|c w]; [congruence|].
    rewrite occurrences_cons. destruct words as [|w2 words].
    + change (join (lit " ") [c :: w]) with (c :: w).
      rewrite <- (app_nil_r (c :: w)) at 1.
      destruct (count_phrase_token ucd a t c w [] before Ht Hp Hb)
        as (q & Hq & E); [now left|].
      rewrite E. reflexivity.
    + change (join (lit " ") ((c :: w) :: w2 :: words))
        with ((c :: w) ++ 32%N :: join (lit " ") (w2 :: words)).
      destruct (count_phrase_token ucd a t c w
                  (32%N :: join (lit " ") (w2 :: words)) before Ht Hp Hb)
        as (q & Hq & E); [right; now eexists|].
      rewrite E. inversion Ht; subst.
      rewrite count_phrase_at_space by assumption.
      rewrite IH; [reflexivity | now right].
Qed.

(** X22: for a target that normalises to one word of lower-case letters and
    digits, and tokens made of letters and digits (no apostrophe), the
    target count is the number of tokens equal to the target. *)
Theorem target_count_single_word (ucd : unicode_db) (words : list pystr)
    (target related : pystr) (kw : Keywords) (flags : Flags) :
  lower ucd (strip target) <> [] ->
  Forall (fun x => is_plain x = true) (lower ucd (strip target)) ->
  Forall (fun w => w <> [] /\ Forall (fun x => is_plain x = true) w) words ->
  keyword_metrics ucd words target related = Ok (kw, flags) ->
  target_count kw = occurrences (lower ucd (strip target)) words.
Proof.
  intros Hne Ht Hw. unfold keyword_metrics.
  destruct (lower ucd (strip target)) as [|a t] eqn:T; [congruence|].
  cbn [is_empty].
  rewrite (count_phrase_tokens ucd a t words None Ht Hw (or_introl eq_refl)).
  destruct (0 <? len words)%Z eqn:E;
    [apply Z.ltb_lt in E; rewrite truediv_nonzero by lia|];
    cbv [bind]; intros H; apply Ok_inj in H;
    apply (f_equal fst) in H; cbn [fst] in H; subst kw; reflexivity.
Qed.

Lemma target_count_single_word_witness :
  exists kw flags,
    keyword_metrics ascii_only_db [lit "seo"; lit "tips"; lit "seo"]
      (lit " SEO ") [] = Ok (kw, flags)
    /\ target_count kw = 2%Z.
Proof.
  do 2 eexists. split; [vm_compute; reflexivity|].
  refine (target_count_single_word ascii_only_db
            [lit "seo"; lit "tips"; lit "seo"] (lit " SEO ") [] _ _ _ _ _ _).
  - discriminate.
  - vm_compute. repeat constructor.
  - repeat constructor; discriminate.
  - vm_compute. reflexivity.
Defined.
